(** * Expense Tracker API (backend/server.js): a shallow embedding

    The server is one Express application: a CORS policy, a MongoDB
    connection opened at start-up, one Mongoose model ([Expense]) and two
    protected routes, [GET /expenses] and [POST /expenses].

    JavaScript values and the coercions the handlers rely on ([!v],
    [Number(v)]) come first, then the cross-origin policy, the Mongoose
    model and its store, the two routes, written in state-passing style
    over the store, and the start-up of the process as a transition
    system.  The properties follow the definitions. *)

From Stdlib Require Import ZArith List String Ascii Bool Lia.
From Stdlib Require Import Permutation Sorted.
From Stdlib Require Import Floats.SpecFloat.
From Stdlib Require Import DecimalString.
Import ListNotations.

Local Open Scope string_scope.
Local Open Scope Z_scope.

Set Warnings "-register-all".

(* ================================================================== *)
(** * JavaScript values *)
(* ================================================================== *)

Module JS.

(** ** Numbers

    A JavaScript number is an IEEE-754 binary64 value.  [spec_float] is the
    Standard Library's executable specification of such values; precision
    53 and maximal exponent 1024 select binary64. *)

Definition number : Type := spec_float.

Definition prec : Z := 53.
Definition emax : Z := 1024.

Definition NaN : number := S754_nan.
Definition Infinity : number := S754_infinity false.
Definition pos_zero : number := S754_zero false.

Definition isNaN (n : number) : bool :=
  match n with S754_nan => true | _ => false end.

Definition isFinite (n : number) : bool :=
  match n with S754_zero _ | S754_finite _ _ _ => true | _ => false end.

(** The integer [z] as a number (round to nearest, ties to even). *)
Definition of_Z (z : Z) : number := binary_normalize prec emax z 0 false.

(** [m * 10^e] as a number, for [0 <= m].  For a negative [e] the quotient
    [m / 10^-e] is rounded once, by the division of the floating-point
    specification. *)
Definition of_decimal (m : Z) (e : Z) : number :=
  match m with
  | Zpos p =>
      if 0 <=? e then binary_normalize prec emax (Z.pos p * 10 ^ e) 0 false
      else SFdiv prec emax (S754_finite false p 0)
                           (S754_finite false (Z.to_pos (10 ^ (- e))) 0)
  | _ => S754_zero false
  end.

Definition apply_sign (neg : bool) (n : number) : number :=
  if neg then SFopp n else n.

(** ** Strings as sequences of 8-bit code units *)

Definition code (c : ascii) : Z := Z.of_nat (nat_of_ascii c).

(** StrWhiteSpaceChar, for the code units below 256: TAB, LF, VT, FF, CR,
    SP and NBSP. *)
Definition is_white_space (c : ascii) : bool :=
  let n := code c in
  ((9 <=? n) && (n <=? 13)) || (n =? 32) || (n =? 160).

Definition is_digit (c : ascii) : bool :=
  let n := code c in (48 <=? n) && (n <=? 57).

Definition digit_value (c : ascii) : Z := code c - 48.

(** The value of [c] as a digit in base [radix], when it is one. *)
Definition digit_in (radix : Z) (c : ascii) : option Z :=
  let n := code c in
  let v := if (48 <=? n) && (n <=? 57) then n - 48
           else if (97 <=? n) && (n <=? 102) then n - 87
           else if (65 <=? n) && (n <=? 70) then n - 55
           else radix in
  if v <? radix then Some v else None.

Fixpoint trim_start (s : string) : string :=
  match s with
  | String c r => if is_white_space c then trim_start r else s
  | EmptyString => EmptyString
  end.

Fixpoint trim_end (s : string) : string :=
  match s with
  | String c r =>
      match trim_end r with
      | EmptyString => if is_white_space c then EmptyString else String c EmptyString
      | r' => String c r'
      end
  | EmptyString => EmptyString
  end.

Definition trim (s : string) : string := trim_end (trim_start s).

(** [s.endsWith(suffix)] *)
Definition endsWith (s suffix : string) : bool :=
  let n := String.length s in
  let k := String.length suffix in
  (k <=? n)%nat && String.eqb (substring (n - k) k s) suffix.

(** ** StringToNumber

    The StringNumericLiteral grammar of ECMAScript: optional white space
    around either nothing (the value is +0), a signed decimal literal
    ([Infinity], digits with an optional fraction and exponent) or an
    unsigned binary, octal or hexadecimal integer literal.  Anything else
    is [NaN]. *)

(** Reads a run of decimal digits: their value, how many there were, and
    the rest of the string. *)
Fixpoint read_digits (s : string) (acc : Z) (count : Z) : Z * Z * string :=
  match s with
  | String c r =>
      if is_digit c then read_digits r (10 * acc + digit_value c) (count + 1)
      else (acc, count, s)
  | EmptyString => (acc, count, s)
  end.

(** Reads a whole string of digits in base [radix]; [None] when a character
    is not such a digit. *)
Fixpoint read_radix (radix : Z) (s : string) (acc : Z) : option Z :=
  match s with
  | String c r =>
      match digit_in radix c with
      | Some v => read_radix radix r (radix * acc + v)
      | None => None
      end
  | EmptyString => Some acc
  end.

Definition non_decimal (radix : Z) (digits : string) : number :=
  match digits with
  | EmptyString => NaN
  | _ => match read_radix radix digits 0 with
         | Some v => of_Z v
         | None => NaN
         end
  end.

(** ExponentPart, or nothing: the exponent, when the rest of the string is
    well formed. *)
Definition read_exponent (s : string) : option Z :=
  match s with
  | EmptyString => Some 0
  | String c r =>
      if (code c =? 101) || (code c =? 69) then
        let '(neg, r1) :=
          match r with
          | String "-" r' => (true, r')
          | String "+" r' => (false, r')
          | _ => (false, r)
          end in
        match read_digits r1 0 0 with
        | (v, n, EmptyString) =>
            if 0 <? n then Some (if neg then - v else v) else None
        | _ => None
        end
      else None
  end.

(** StrUnsignedDecimalLiteral other than [Infinity]. *)
Definition unsigned_decimal (s : string) : number :=
  let '(int_part, int_len, r) := read_digits s 0 0 in
  let '(mant, frac_len, r1, has_digits) :=
    match r with
    | String "." r' =>
        let '(m, len, r'') := read_digits r' int_part 0 in
        (m, len, r'', (0 <? int_len) || (0 <? len))
    | _ => (int_part, 0, r, 0 <? int_len)
    end in
  if has_digits then
    match read_exponent r1 with
    | Some e => of_decimal mant (e - frac_len)
    | None => NaN
    end
  else NaN.

Definition str_decimal (s : string) : number :=
  let '(neg, r) :=
    match s with
    | String "-" r' => (true, r')
    | String "+" r' => (false, r')
    | _ => (false, s)
    end in
  if String.eqb r "Infinity" then apply_sign neg Infinity
  else apply_sign neg (unsigned_decimal r).

Definition StringToNumber (s : string) : number :=
  match trim s with
  | EmptyString => pos_zero
  | String "0" (String "x" r) | String "0" (String "X" r) => non_decimal 16 r
  | String "0" (String "o" r) | String "0" (String "O" r) => non_decimal 8 r
  | String "0" (String "b" r) | String "0" (String "B" r) => non_decimal 2 r
  | t => str_decimal t
  end.

(** ** Number::toString

    The text of a finite number is the shortest decimal that reads back
    as the number: digits [s], [k] of them, and an exponent [n] with
    [s * 10^(n-k)] rounding to the number, [k] as small as possible and,
    among the candidates, [s] the closest to the number. *)

(** The decimal digits of a natural number. *)
Definition digits_of (z : Z) : string := NilZero.string_of_int (Z.to_int z).

Fixpoint zeros (n : nat) : string :=
  match n with
  | O => ""
  | S n' => String "0" (zeros n')
  end.

(** The fraction [num / den] times [10^p]. *)
Definition scale10 (num den p : Z) : Z * Z :=
  if 0 <=? p then (num * 10 ^ p, den) else (num, den * 10 ^ (- p)).

(** [m * 2^e] as a fraction. *)
Definition fraction_of (m : positive) (e : Z) : Z * Z :=
  if 0 <=? e then (Z.pos m * 2 ^ e, 1) else (Z.pos m, 2 ^ (- e)).

(** The [n] with [10^(n-1) <= num / den < 10^n]. *)
Definition decimal_exponent (num den : Z) : Z :=
  let guess := Z.of_nat (String.length (digits_of num))
               - Z.of_nat (String.length (digits_of den)) in
  let '(a, b) := scale10 num den (- guess) in
  if b <=? a then guess + 1 else guess.

Definition same_number (x y : number) : bool :=
  match x, y with
  | S754_finite sx mx ex, S754_finite sy my ey =>
      Bool.eqb sx sy && Pos.eqb mx my && Z.eqb ex ey
  | S754_zero sx, S754_zero sy => Bool.eqb sx sy
  | S754_infinity sx, S754_infinity sy => Bool.eqb sx sy
  | S754_nan, S754_nan => true
  | _, _ => false
  end.

(** Looks for the digits with [k] digits, then with one more, and so on;
    17 digits always suffice for a binary64 number. *)
Fixpoint shortest_digits (fuel : nat) (x : number) (num den n k : Z) : Z * Z * Z :=
  match fuel with
  | O => (0, n, k)
  | S fuel' =>
      let '(a, b) := scale10 num den (k - n) in
      let q := a / b in
      let r := a mod b in
      let low := same_number (of_decimal q (n - k)) x in
      let high := same_number (of_decimal (q + 1) (n - k)) x in
      let nearest :=
        if 2 * r <? b then q
        else if b <? 2 * r then q + 1
        else if Z.even q then q else q + 1 in
      if low || high then
        let s := if low && high then nearest else if low then q else q + 1 in
        if s =? 10 ^ k then (1, n + 1, 1) else (s, n, k)
      else shortest_digits fuel' x num den n (k + 1)
  end.

Definition format_digits (s n k : Z) : string :=
  let ds := digits_of s in
  if (k <=? n) && (n <=? 21) then
    ds ++ zeros (Z.to_nat (n - k))
  else if (0 <? n) && (n <=? 21) then
    substring 0 (Z.to_nat n) ds ++ "." ++ substring (Z.to_nat n) (Z.to_nat (k - n)) ds
  else if (-6 <? n) && (n <=? 0) then
    "0." ++ zeros (Z.to_nat (- n)) ++ ds
  else
    let e := n - 1 in
    let exponent := "e" ++ (if 0 <=? e then "+" else "-") ++ digits_of (Z.abs e) in
    if k =? 1 then ds ++ exponent
    else substring 0 1 ds ++ "." ++ substring 1 (Z.to_nat (k - 1)) ds ++ exponent.

Definition NumberToString (x : number) : string :=
  match x with
  | S754_nan => "NaN"
  | S754_zero _ => "0"
  | S754_infinity false => "Infinity"
  | S754_infinity true => "-Infinity"
  | S754_finite neg m e =>
      let sign := if neg then "-" else "" in
      match binary_round prec emax false m e with
      | S754_finite _ m' e' =>
          let '(num, den) := fraction_of m' e' in
          let '(s, n, k) :=
            shortest_digits 20 (S754_finite false m' e') num den
              (decimal_exponent num den) 1 in
          sign ++ format_digits s n k
      | S754_infinity _ => sign ++ "Infinity"
      | _ => "0"
      end
  end.

(** ** Values

    The values a JSON request body can hold, and [undefined] for a
    property that is absent. *)

Inductive Value : Type :=
  | Undefined
  | Null
  | Bool (b : bool)
  | Num (n : number)
  | Str (s : string)
  | Arr (items : list Value)
  | Obj (props : list (string * Value)).

(** [o.k] on the property list of an object: the first entry for [k]. *)
Fixpoint get (k : string) (props : list (string * Value)) : Value :=
  match props with
  | (k', v) :: rest => if String.eqb k k' then v else get k rest
  | [] => Undefined
  end.

Definition has_own (k : string) (props : list (string * Value)) : bool :=
  existsb (fun kv => String.eqb k (fst kv)) props.

(** ToBoolean, and [!v]. *)
Definition truthy (v : Value) : bool :=
  match v with
  | Undefined | Null => false
  | Bool b => b
  | Num (S754_zero _) | Num S754_nan => false
  | Num _ => true
  | Str EmptyString => false
  | Str _ => true
  | Arr _ | Obj _ => true
  end.

Definition falsy (v : Value) : bool := negb (truthy v).

(** ** Errors and completions *)

(** What went wrong at one path of a document. *)
Inductive PathError : Type :=
  | CastFailed (kind : string)
  | Required.

(** [error.message].  The message of a Mongoose validation error lists the
    paths that failed; it is kept structured. *)
Inductive Message : Type :=
  | Text (s : string)
  | ValidationFailed (model : string) (errors : list (string * PathError)).

Record Error : Type := mkError { name : string; message : Message }.

Definition TypeError (s : string) : Error := mkError "TypeError" (Text s).

(** The result of evaluating an expression that may throw. *)
Inductive Completion (A : Type) : Type :=
  | Normal (a : A)
  | Throw (e : Error).
Arguments Normal {A} a.
Arguments Throw {A} e.

Definition bind {A B} (c : Completion A) (k : A -> Completion B) : Completion B :=
  match c with
  | Normal a => k a
  | Throw e => Throw e
  end.

(** ** ToString and ToNumber *)

Definition join_with (sep : string) (parts : list string) : string :=
  match parts with
  | [] => ""
  | p :: rest => fold_left (fun acc q => acc ++ sep ++ q) rest p
  end.

(** ToString.  An array prints its elements separated by commas, with
    [null] and [undefined] elements printed as nothing.  An object parsed
    from JSON has the conversions of [Object.prototype] unless it has an
    own [toString] property, which cannot be called: then the conversion
    falls back to [valueOf], gets the object itself, and throws. *)
Fixpoint ToString (v : Value) : Completion string :=
  match v with
  | Undefined => Normal "undefined"
  | Null => Normal "null"
  | Bool true => Normal "true"
  | Bool false => Normal "false"
  | Num n => Normal (NumberToString n)
  | Str s => Normal s
  | Arr items =>
      let fix elements (l : list Value) : Completion (list string) :=
        match l with
        | [] => Normal []
        | x :: rest =>
            bind (match x with
                  | Undefined | Null => Normal ""
                  | _ => ToString x
                  end) (fun sx =>
            bind (elements rest) (fun srest => Normal (sx :: srest)))
        end in
      bind (elements items) (fun parts => Normal (join_with "," parts))
  | Obj props =>
      if has_own "toString" props
      then Throw (TypeError "Cannot convert object to primitive value")
      else Normal "[object Object]"
  end.

(** ToNumber, that is [Number(v)].  For an array or an object, ToPrimitive
    with hint number first tries [valueOf], which is not callable when the
    JSON object has it as an own property and otherwise returns the object
    itself, and so ends at [toString]. *)
Definition ToNumber (v : Value) : Completion number :=
  match v with
  | Undefined => Normal NaN
  | Null => Normal pos_zero
  | Bool true => Normal (of_Z 1)
  | Bool false => Normal pos_zero
  | Num n => Normal n
  | Str s => Normal (StringToNumber s)
  | Arr _ | Obj _ => bind (ToString v) (fun s => Normal (StringToNumber s))
  end.

End JS.

(* ================================================================== *)
(** * Cross-origin policy (server.js, lines 18-40) *)
(* ================================================================== *)

Module Cors.

Definition ALLOWED_ORIGINS : list string :=
  [ "https://mern-endterm.vercel.app";
    "https://mern-endterm-czx9.vercel.app";
    "https://mern-endterm2.onrender.com";
    "http://localhost:3000" ].

(** [list.includes(x)] on strings. *)
Definition includes (l : list string) (x : string) : bool :=
  existsb (String.eqb x) l.

(** What the [origin] function hands to its callback: an error or none,
    and whether the origin is allowed. *)
Inductive Callback : Type :=
  | callback (err : option JS.Error) (allow : bool).

Definition rejection_message (origin : string) : string :=
  "Origin " ++ origin ++ " is not allowed by the server's CORS policy.".

(** The [origin] option of the [cors] middleware.  Its argument is
    [req.headers.origin]: a string, or [undefined] when the request has no
    such header.  [!origin] holds for [undefined] and for the empty
    string. *)
Definition origin (o : option string) : Callback :=
  match o with
  | None => callback None true
  | Some s =>
      if JS.falsy (JS.Str s) then callback None true
      else if includes ALLOWED_ORIGINS s
              || JS.endsWith s ".vercel.app"
              || JS.endsWith s ".onrender.com"
      then callback None true
      else callback (Some (JS.mkError "Error" (JS.Text (rejection_message s)))) false
  end.

End Cors.

(* ================================================================== *)
(** * Requests and responses *)
(* ================================================================== *)

Module Express.

(** [req.user], as the auth gate attaches it. *)
Record AuthUser : Type := mkAuthUser { id : string }.

Record Request : Type := mkRequest {
  headers : list (string * string);
  body : list (string * JS.Value);
  user : option AuthUser
}.

Fixpoint header (name : string) (hs : list (string * string)) : option string :=
  match hs with
  | (k, v) :: rest => if String.eqb name k then Some v else header name rest
  | [] => None
  end.

End Express.

(* ================================================================== *)
(** * The Expense model (server.js, lines 56-67) *)
(* ================================================================== *)

Module Mongoose.

Import JS.

(** A stored expense: the four paths of [expenseSchema] and the [_id]
    every document gets.  [user] is the id of the owning user, written as
    the text of its ObjectId, which is how the gate hands ids over: the
    cast of the [ObjectId] schema type leaves such an id as it is.  [date]
    is a time in milliseconds since the epoch. *)
Record Expense : Type := mkExpense {
  _id : string;
  user : string;
  description : string;
  amount : number;
  date : Z
}.

(** The state of one path of a document that is not saved yet. *)
Inductive Path (A : Type) : Type :=
  | Set_to (a : A)
  | Unset
  | Invalid (kind : string).
Arguments Set_to {A} a.
Arguments Unset {A}.
Arguments Invalid {A} kind.

(** [new Expense(obj)]: a document whose paths were cast to the types of
    the schema.  A cast that fails is remembered and reported when the
    document is validated. *)
Record Document : Type := mkDocument {
  doc_id : string;
  doc_user : Path string;
  doc_description : Path string;
  doc_amount : Path number;
  doc_date : Path Z
}.

(** The cast of the [String] schema type: [null] and [undefined] stay as
    they are, a document stands for its string [_id], and any other value
    is cast by its own [toString], which arrays and plain objects lack. *)
Definition castString (v : Value) : Path string :=
  match v with
  | Undefined | Null => Unset
  | Str s => Set_to s
  | Num n => Set_to (NumberToString n)
  | Bool true => Set_to "true"
  | Bool false => Set_to "false"
  | Arr _ => Invalid "string"
  | Obj props =>
      match get "_id" props with
      | Str (String c r) => Set_to (String c r)
      | _ => Invalid "string"
      end
  end.

(** The cast of the [Number] schema type, for a value that is a number
    already: [NaN] is refused. *)
Definition castNumber (n : number) : Path number :=
  if isNaN n then Invalid "Number" else Set_to n.

(** The options of a schema path: whether it is [required], and whether
    it has [Date.now] as its [default]. *)
Record PathOptions : Type := mkPathOptions {
  required : bool;
  default_now : bool
}.

Record Schema : Type := mkSchema {
  user_path : PathOptions;
  description_path : PathOptions;
  amount_path : PathOptions;
  date_path : PathOptions
}.

Definition expenseSchema : Schema :=
  {| user_path := mkPathOptions true false;
     description_path := mkPathOptions true false;
     amount_path := mkPathOptions true false;
     date_path := mkPathOptions false true |}.

(** [new Expense({ user, description, amount })].  [oid] is the fresh
    [_id] and [now] the value of [Date.now()], the default of the [date]
    path, which the object handed over never sets. *)
Definition new_Expense (oid : string) (now : Z)
    (user : string) (description : Value) (amount : number) : Document :=
  {| doc_id := oid;
     doc_user := Set_to user;
     doc_description := castString description;
     doc_amount := castNumber amount;
     doc_date := if default_now (date_path expenseSchema) then Set_to now else Unset |}.

(** The error at one path, when there is one: a failed cast, or a path
    that is required and has no value. *)
Definition check_path {A} (name : string) (options : PathOptions)
    (empty : A -> bool) (p : Path A) : list (string * PathError) :=
  match p with
  | Invalid kind => [(name, CastFailed kind)]
  | Unset => if required options then [(name, Required)] else []
  | Set_to a => if required options && empty a then [(name, Required)] else []
  end.

(** [doc.validate()] against [expenseSchema]; a required string may not be
    empty. *)
Definition validate (d : Document) : list (string * PathError) :=
  (check_path "user" (user_path expenseSchema) (fun _ => false) (doc_user d)
   ++ check_path "description" (description_path expenseSchema)
        (fun s => String.eqb s "") (doc_description d)
   ++ check_path "amount" (amount_path expenseSchema) (fun _ => false) (doc_amount d)
   ++ check_path "date" (date_path expenseSchema) (fun _ => false) (doc_date d))%list.

Definition ValidationError (errors : list (string * PathError)) : Error :=
  mkError "ValidationError" (ValidationFailed "Expense" errors).

(** The record a valid document is stored as. *)
Definition to_record (d : Document) : option Expense :=
  match doc_user d, doc_description d, doc_amount d, doc_date d with
  | Set_to u, Set_to s, Set_to a, Set_to t => Some (mkExpense (doc_id d) u s a t)
  | _, _, _, _ => None
  end.

(** ** The store

    The [expenses] collection behind the model.  [fault] is the error the
    driver is about to raise, when the database cannot serve an operation;
    [operations] counts the operations sent to the driver. *)
Record Store : Type := mkStore {
  docs : list Expense;
  fault : option string;
  operations : nat
}.

Definition MongoError (msg : string) : Error := mkError "MongoError" (Text msg).

(** One operation of the driver on the collection. *)
Definition driver {A} (st : Store) (op : list Expense -> A * list Expense)
    : Completion A * Store :=
  match fault st with
  | Some msg => (Throw (MongoError msg), mkStore (docs st) (fault st) (S (operations st)))
  | None =>
      let '(a, docs') := op (docs st) in
      (Normal a, mkStore docs' (fault st) (S (operations st)))
  end.

(** [doc.save()]: validation first; only a valid document is sent to the
    driver, which inserts it. *)
Definition save (d : Document) (st : Store) : Completion Expense * Store :=
  match validate d, to_record d with
  | [], Some e => driver st (fun ds => (e, (ds ++ [e])%list))
  | errors, _ => (Throw (ValidationError errors), st)
  end.

(** Sorting by [{ date: -1 }]: later dates first. *)
Fixpoint insert_by_date (e : Expense) (l : list Expense) : list Expense :=
  match l with
  | [] => [e]
  | x :: rest => if date x <=? date e then e :: l else x :: insert_by_date e rest
  end.

Definition sort_by_date_desc (l : list Expense) : list Expense :=
  fold_right insert_by_date [] l.

(** [Expense.find({ user: uid }).sort({ date: -1 })] *)
Definition find_by_user_sorted (uid : string) (st : Store)
    : Completion (list Expense) * Store :=
  driver st (fun ds =>
    (sort_by_date_desc (filter (fun e => String.eqb (user e) uid) ds), ds)).

End Mongoose.

(* ================================================================== *)
(** * The protected routes (server.js, lines 82-111) *)
(* ================================================================== *)

Import JS Express Mongoose.

(** The JSON bodies the routes send. *)
Inductive Body : Type :=
  | JsonExpenses (expenses : list Expense)
  | JsonExpense (expense : Expense)
  | JsonMessage (message : Message).

(** [res.status(status).json(body)] *)
Record Response : Type := mkResponse { status : Z; json : Body }.

(** How a handler ends: with a response, or with an exception nothing in
    the handler catches. *)
Inductive Outcome : Type :=
  | Respond (res : Response)
  | Uncaught (e : Error).

(** [try { ... } catch (error) { ... }] around a computation on the
    store. *)
Definition try_catch {A B} (block : Completion A * Store)
    (then_ : A -> B) (catch : Error -> B) : B * Store :=
  match block with
  | (Normal a, st) => (then_ a, st)
  | (Throw e, st) => (catch e, st)
  end.

(** ** The auth gate *)

(** The Token Service: [verify token] is the id of the user the token was
    issued to, when the token is well signed and has not expired.  It
    lives in the middleware, outside server.js; the development is
    parametric in it. *)
Class TokenService : Type := verify : string -> option string.

(** The token of an [Authorization: Bearer <token>] header value. *)
Definition bearer_token (value : string) : option string :=
  if String.prefix "Bearer " value
  then Some (substring 7 (String.length value - 7) value)
  else None.

Definition Unauthorized : Response :=
  mkResponse 401 (JsonMessage (Text "Unauthorized")).

(** Modelled from the spec: the [auth] middleware ([./middleware/auth]),
    which server.js only requires.  It extracts a bearer token from the
    authorization header; an absent token and a token the Token Service
    refuses both end the request with [Unauthorized]; otherwise the
    resolved user id is attached to the request as [req.user], and the
    request goes on to the handler. *)
Definition auth `{TokenService} (req : Request) : Response + Request :=
  match header "authorization" (headers req) with
  | None => inl Unauthorized
  | Some value =>
      match bearer_token value with
      | None => inl Unauthorized
      | Some token =>
          match verify token with
          | None => inl Unauthorized
          | Some uid =>
              inr (mkRequest (headers req) (body req) (Some (mkAuthUser uid)))
          end
      end
  end.

(** [req.user.id]; reading [id] of an [undefined] user throws. *)
Definition req_user_id (req : Request) : Completion string :=
  match Express.user req with
  | Some u => Normal (id u)
  | None => Throw (TypeError "Cannot read properties of undefined (reading 'id')")
  end.

(** ** GET /expenses *)

(** The handler of [app.get('/expenses', auth, ...)]: everything happens
    inside the [try] block. *)
Definition get_expenses_handler (req : Request) (st : Store) : Outcome * Store :=
  try_catch
    (match req_user_id req with
     | Normal uid => find_by_user_sorted uid st
     | Throw e => (Throw e, st)
     end)
    (fun expenses => Respond (mkResponse 200 (JsonExpenses expenses)))
    (fun error => Respond (mkResponse 500 (JsonMessage (message error)))).

(** ** POST /expenses *)

Definition required_message : Message :=
  Text "Description and amount are required.".

(** The handler of [app.post('/expenses', auth, ...)].  [oid] and [now]
    are what the run time supplies when the document is constructed: its
    fresh [_id] and the value of [Date.now()].  The object literal handed
    to [new Expense] is evaluated outside the [try] block, so an exception
    of [req.user.id] or [Number(amount)] is not caught. *)
Definition post_expenses_handler (oid : string) (now : Z)
    (req : Request) (st : Store) : Outcome * Store :=
  let description := get "description" (body req) in
  let amount := get "amount" (body req) in
  if falsy description || falsy amount then
    (Respond (mkResponse 400 (JsonMessage required_message)), st)
  else
    match req_user_id req with
    | Throw e => (Uncaught e, st)
    | Normal uid =>
        match ToNumber amount with
        | Throw e => (Uncaught e, st)
        | Normal n =>
            let newExpense := new_Expense oid now uid description n in
            try_catch (save newExpense st)
              (fun savedExpense => Respond (mkResponse 201 (JsonExpense savedExpense)))
              (fun error => Respond (mkResponse 400 (JsonMessage (message error))))
        end
    end.

(** ** The routes: the gate, then the handler *)

Definition protected `{TokenService} (handler : Request -> Store -> Outcome * Store)
    (req : Request) (st : Store) : Outcome * Store :=
  match auth req with
  | inl res => (Respond res, st)
  | inr req' => handler req' st
  end.

(** [app.get('/expenses', auth, handler)] *)
Definition GET_expenses `{TokenService} : Request -> Store -> Outcome * Store :=
  protected get_expenses_handler.

(** [app.post('/expenses', auth, handler)] *)
Definition POST_expenses `{TokenService} (oid : string) (now : Z)
    : Request -> Store -> Outcome * Store :=
  protected (post_expenses_handler oid now).

(** The identity the gate resolves for a request, when it lets it pass. *)
Definition identity `{TokenService} (req : Request) : option string :=
  match auth req with
  | inr req' => option_map id (Express.user req')
  | inl _ => None
  end.

(* ================================================================== *)
(** * Start-up (server.js, lines 46-51 and 115-117) *)
(* ================================================================== *)

Module Startup.

(** [process.env.PORT || 5000], as the text that is logged. *)
Definition PORT (env_port : option string) : string :=
  match env_port with
  | Some (String c r) => String c r
  | _ => "5000"
  end.

(** The promise of [mongoose.connect(process.env.MONGO_URI)]. *)
Inductive Connection : Type :=
  | Pending
  | Connected
  | Failed (err : string).

(** The process: the port, the connection promise, whether the server
    listens, the exit code once [process.exit] was called, the console,
    and the requests dispatched to the application so far, each with the
    state of the connection at that moment. *)
Record Process : Type := mkProcess {
  port : string;
  connection : Connection;
  listening : bool;
  exit_code : option Z;
  console : list string;
  served : list (Request * Connection)
}.

(** What the event loop delivers to the process. *)
Inductive Event : Type :=
  | ConnectFulfilled
  | ConnectRejected (err : string)
  | Listening
  | Incoming (req : Request).

(** The state after the script ran to its end: the connection was
    requested and is pending, and [app.listen(PORT, ...)] was called; the
    server listens once the run time has bound the port. *)
Definition start (env_port : option string) : Process :=
  mkProcess (PORT env_port) Pending false None [] [].

Definition log (p : Process) (line : string) : list string :=
  (console p ++ [line])%list.

(** One turn of the event loop.  A process that has exited runs nothing.
    The promise settles once: its [then] callback logs, its [catch]
    callback logs and calls [process.exit(1)].  The callback of
    [app.listen] logs.  A request is dispatched to the application when
    the server listens.  The step follows the callbacks server.js
    registers and records which requests were dispatched; what the run
    time does when a handler ends with an exception, or when the port
    cannot be bound, is not part of it. *)
Definition step (p : Process) (ev : Event) : Process :=
  match exit_code p with
  | Some _ => p
  | None =>
      match ev, connection p with
      | ConnectFulfilled, Pending =>
          mkProcess (port p) Connected (listening p) None
            (log p "MongoDB connected successfully.") (served p)
      | ConnectRejected err, Pending =>
          mkProcess (port p) (Failed err) (listening p) (Some 1)
            (log p ("MongoDB connection error: " ++ err)) (served p)
      | Listening, c =>
          mkProcess (port p) c true None
            (log p ("Server is running on port " ++ port p)) (served p)
      | Incoming req, c =>
          if listening p
          then mkProcess (port p) c true None (console p) (served p ++ [(req, c)])%list
          else p
      | _, _ => p
      end
  end.

Definition run (p : Process) (events : list Event) : Process :=
  fold_left step events p.

Definition has_failed (c : Connection) : bool :=
  match c with Failed _ => true | _ => false end.

(** What holds of the process at every moment: a failed connection means
    the process has exited with code 1, and no request was dispatched
    under a failed connection. *)
Definition invariant (p : Process) : Prop :=
  (forall err, connection p = Failed err -> exit_code p = Some 1)
  /\ (forall req c, In (req, c) (served p) -> has_failed c = false).

End Startup.

(* ================================================================== *)
(** * Vocabulary of the properties *)
(* ================================================================== *)

(** The decision of the CORS middleware for a request: the [origin]
    function applied to [req.headers.origin]. *)
Definition cors_decision (req : Request) : Cors.Callback :=
  Cors.origin (header "origin" (headers req)).

(** [s] ends with [suffix]. *)
Definition ends_with (s suffix : string) : Prop :=
  exists p, s = p ++ suffix.

(** An origin the policy names: one of the allow-list, or one under a
    trusted deployment domain. *)
Definition trusted_origin (s : string) : Prop :=
  In s Cors.ALLOWED_ORIGINS
  \/ ends_with s ".vercel.app" \/ ends_with s ".onrender.com".

(** The cross-origin policy in the words of the specification: no origin
    header, or a trusted origin. *)
Definition stated_policy (o : option string) : Prop :=
  o = None \/ exists s, o = Some s /\ trusted_origin s.

(** The policy of the code: an empty origin counts as none. *)
Definition policy (o : option string) : Prop :=
  o = None \/ o = Some "" \/ exists s, o = Some s /\ trusted_origin s.

Definition allow : Cors.Callback := Cors.callback None true.

Definition reject (s : string) : Cors.Callback :=
  Cors.callback
    (Some (mkError "Error"
       (Text ("Origin " ++ s ++ " is not allowed by the server's CORS policy."))))
    false.

(** Two request bodies that agree on every property outside [keys]. *)
Definition agree_except (keys : list string) (b1 b2 : list (string * Value)) : Prop :=
  forall k, ~ In k keys -> get k b1 = get k b2.

(** Two requests that differ at most in the properties [keys] of their
    bodies. *)
Definition same_but (keys : list string) (r1 r2 : Request) : Prop :=
  headers r1 = headers r2 /\ Express.user r1 = Express.user r2
  /\ agree_except keys (body r1) (body r2).

(** The presence check of [POST /expenses]: neither [!description] nor
    [!amount]. *)
Definition passes_guard (req : Request) : bool :=
  negb (falsy (get "description" (body req)) || falsy (get "amount" (body req))).

(** The created record of a response, when it carries one. *)
Definition created (o : Outcome) : option Expense :=
  match o with
  | Respond (mkResponse _ (JsonExpense e)) => Some e
  | _ => None
  end.

(** Later dates first. *)
Definition newest_first (l : list Expense) : Prop :=
  StronglySorted (fun x y => date y <= date x) l.

(** The validation rule in the words of the specification: the
    description is present and not empty, and the amount is present and
    coerces to a number. *)
Definition spec_description_ok (v : Value) : bool :=
  match v with
  | Str (String _ _) => true
  | _ => false
  end.

Definition spec_amount_ok (v : Value) : bool :=
  match v with
  | Undefined | Null | Str EmptyString => false
  | _ => match ToNumber v with
         | Normal n => negb (isNaN n)
         | Throw _ => false
         end
  end.

Definition spec_valid (req : Request) : bool :=
  spec_description_ok (get "description" (body req))
  && spec_amount_ok (get "amount" (body req)).

(** A numeric string: not empty, and its coercion is a finite number. *)
Definition numeric_string (s : string) : bool :=
  negb (String.eqb s "") && isFinite (StringToNumber s).

(** ** Sequences of requests *)

(** A sequence of [POST /expenses] requests, one after the other, each
    with the [_id] and the clock value of its turn. *)
Fixpoint run_posts `{TokenService} (posts : list (string * Z * Request))
    (st : Store) : Store :=
  match posts with
  | [] => st
  | (oid, now, req) :: rest => run_posts rest (snd (POST_expenses oid now req st))
  end.

(** The expenses of [uid] in the store, as [GET /expenses] lists them. *)
Definition listing (uid : string) (st : Store) : list Expense :=
  sort_by_date_desc (filter (fun e => String.eqb (Mongoose.user e) uid) (docs st)).

(** ** Sample data for the examples *)

Definition alice : string := "656e1f0000000000000000a1".
Definition bob : string := "656e1f0000000000000000b2".

(** A token service with two tokens. *)
Definition sample_tokens : TokenService :=
  fun token =>
    if String.eqb token "token-of-alice" then Some alice
    else if String.eqb token "token-of-bob" then Some bob
    else None.

Definition request_of (token : string) (body : list (string * Value)) : Request :=
  mkRequest [("authorization", "Bearer " ++ token)] body None.

Definition three_and_a_half : number := S754_finite false 7881299347898368 (-51).

Definition rent : Expense := mkExpense "e1" alice "rent" (of_Z 700) 1000.
Definition lunch : Expense := mkExpense "e2" bob "lunch" (of_Z 12) 2000.
Definition books : Expense := mkExpense "e3" alice "books" (of_Z 40) 3000.

Definition sample_store : Store := mkStore [rent; lunch; books] None 0.
Definition empty_store : Store := mkStore [] None 0.
Definition broken_store : Store := mkStore [rent] (Some "connection lost") 0.

Definition coffee_body : list (string * Value) :=
  [("description", Str "coffee"); ("amount", Str "3.50")].
Definition free_body : list (string * Value) :=
  [("description", Str "coffee"); ("amount", Num pos_zero)].

(* ================================================================== *)
(** * Properties *)
(* ================================================================== *)

(** ** Strings *)

Section StringFacts.

Local Open Scope nat_scope.

Lemma substring_all (s : string) : substring 0 (String.length s) s = s.
Proof. induction s as [|c s IH]; simpl; [reflexivity | now rewrite IH]. Qed.

Lemma substring_skip (p s : string) (n : nat) :
  substring (String.length p) n (p ++ s) = substring 0 n s.
Proof. induction p as [|c p IH]; simpl; [reflexivity | exact IH]. Qed.

Lemma length_append (p s : string) :
  String.length (p ++ s) = String.length p + String.length s.
Proof. induction p as [|c p IH]; simpl; [reflexivity | now rewrite IH]. Qed.

Lemma split_at (s : string) (i : nat) :
  i <= String.length s ->
  s = (substring 0 i s ++ substring i (String.length s - i) s)%string.
Proof.
  revert i. induction s as [|c s IH]; intros [|i] Hi; simpl in *.
  - reflexivity.
  - lia.
  - now rewrite substring_all.
  - f_equal. apply IH. lia.
Qed.

(** [endsWith] holds exactly of the strings that are some prefix followed
    by the suffix. *)
Lemma endsWith_spec (s suffix : string) :
  JS.endsWith s suffix = true <-> exists p, s = (p ++ suffix)%string.
Proof.
  unfold JS.endsWith. rewrite andb_true_iff, Nat.leb_le, String.eqb_eq. split.
  - intros [Hle Hsub].
    exists (substring 0 (String.length s - String.length suffix) s).
    pose proof (split_at s (String.length s - String.length suffix)) as Hs.
    replace (String.length s - (String.length s - String.length suffix))
      with (String.length suffix) in Hs by lia.
    rewrite Hsub in Hs. apply Hs. lia.
  - intros [p ->]. rewrite length_append. split; [lia|].
    replace (String.length p + String.length suffix - String.length suffix)
      with (String.length p) by lia.
    rewrite substring_skip. apply substring_all.
Qed.

End StringFacts.

Lemma includes_In (l : list string) (x : string) :
  Cors.includes l x = true <-> In x l.
Proof.
  unfold Cors.includes. rewrite existsb_exists. split.
  - intros [y [Hy Heq]]. apply String.eqb_eq in Heq. now subst.
  - intros Hx. exists x. split; [assumption | apply String.eqb_refl].
Qed.

(** ** Sorting by date *)

Lemma insert_by_date_perm (e : Expense) (l : list Expense) :
  Permutation (e :: l) (insert_by_date e l).
Proof.
  induction l as [|x l IH]; simpl.
  - apply Permutation_refl.
  - destruct (date x <=? date e).
    + apply Permutation_refl.
    + eapply perm_trans; [apply perm_swap | apply perm_skip, IH].
Qed.

Lemma sort_by_date_desc_perm (l : list Expense) :
  Permutation l (sort_by_date_desc l).
Proof.
  induction l as [|x l IH]; simpl.
  - constructor.
  - eapply perm_trans; [apply perm_skip, IH | apply insert_by_date_perm].
Qed.

Lemma insert_by_date_sorted (e : Expense) (l : list Expense) :
  newest_first l -> newest_first (insert_by_date e l).
Proof.
  unfold newest_first. induction 1 as [|x l Hl IH Hx]; simpl.
  - constructor; constructor.
  - destruct (date x <=? date e) eqn:Hcmp.
    + apply Z.leb_le in Hcmp. constructor.
      * now constructor.
      * constructor; [assumption|].
        eapply Forall_impl; [|exact Hx]. simpl. intros y Hy. lia.
    + apply Z.leb_gt in Hcmp. constructor; [assumption|].
      eapply Permutation_Forall; [apply insert_by_date_perm|].
      constructor; [lia | assumption].
Qed.

Lemma sort_by_date_desc_sorted (l : list Expense) :
  newest_first (sort_by_date_desc l).
Proof.
  induction l as [|x l IH]; simpl.
  - constructor.
  - now apply insert_by_date_sorted.
Qed.

Lemma sort_by_date_desc_In (l : list Expense) (e : Expense) :
  In e (sort_by_date_desc l) <-> In e l.
Proof.
  split; apply Permutation_in;
    [apply Permutation_sym|]; apply sort_by_date_desc_perm.
Qed.

(** ** The gate *)

Section Gate.

Context `{TokenService}.

(** A request the gate lets pass reaches the handler unchanged but for
    [req.user]. *)
Lemma auth_pass (req : Request) (uid : string) :
  identity req = Some uid ->
  auth req = inr (mkRequest (headers req) (body req) (Some (mkAuthUser uid))).
Proof.
  unfold identity, auth.
  destruct (header "authorization" (headers req)) as [value|]; [|discriminate].
  destruct (bearer_token value) as [token|]; [|discriminate].
  destruct (verify token) as [u|]; [|discriminate].
  simpl. now intros [= ->].
Qed.

(** The gate reads the headers only. *)
Lemma identity_headers (r1 r2 : Request) :
  headers r1 = headers r2 -> identity r1 = identity r2.
Proof.
  unfold identity, auth. intros ->.
  destruct (header "authorization" (headers r2)) as [value|]; [|reflexivity].
  destruct (bearer_token value) as [token|]; [|reflexivity].
  destruct (verify token); reflexivity.
Qed.

End Gate.

(** ** Cross-origin policy *)

Lemma trusted_origin_check (s : string) :
  Cors.includes Cors.ALLOWED_ORIGINS s
  || JS.endsWith s ".vercel.app" || JS.endsWith s ".onrender.com" = true
  <-> trusted_origin s.
Proof.
  unfold trusted_origin, ends_with.
  rewrite !orb_true_iff, includes_In, !endsWith_spec. tauto.
Qed.

Lemma trusted_origin_not_empty (s : string) : trusted_origin s -> s <> "".
Proof.
  intros [Hin | [[p Hp] | [p Hp]]] ->.
  - simpl in Hin. intuition discriminate.
  - destruct p; discriminate.
  - destruct p; discriminate.
Qed.

Lemma origin_cases (o : option string) :
  (policy o /\ Cors.origin o = allow)
  \/ (~ policy o /\ exists s, o = Some s /\ Cors.origin o = reject s).
Proof.
  destruct o as [s|].
  - destruct s as [|c r].
    + left. split; [right; left; reflexivity | reflexivity].
    + unfold Cors.origin. simpl JS.falsy. cbv iota.
      destruct (Cors.includes Cors.ALLOWED_ORIGINS (String c r)
                || JS.endsWith (String c r) ".vercel.app"
                || JS.endsWith (String c r) ".onrender.com") eqn:Hchk.
      * left. split; [|reflexivity].
        right; right. exists (String c r). split; [reflexivity|].
        now apply trusted_origin_check.
      * right. split.
        -- intros [Hn | [He | [s [[= <-] Ht]]]]; try discriminate.
           apply trusted_origin_check in Ht. congruence.
        -- exists (String c r). split; reflexivity.
  - left. split; [left; reflexivity | reflexivity].
Qed.

(** C5, as stated, fails: an empty [Origin] header is an origin that is
    neither absent, nor on the allow-list, nor under a trusted domain, and
    the policy allows it. *)
Lemma empty_origin_allowed :
  ~ stated_policy (Some "") /\ Cors.origin (Some "") = allow.
Proof.
  split; [|reflexivity].
  intros [Hn | [s [[= <-] Ht]]]; [discriminate|].
  now apply trusted_origin_not_empty in Ht.
Qed.

(** C5 (amended): the cross-origin decision is a function of the origin
    alone.  A request with no origin header or an empty one is allowed; so
    is an origin of the allow-list or one that ends with [.vercel.app] or
    [.onrender.com]; every other origin is rejected, with an error whose
    message names it; and two requests with the same origin header get the
    same decision. *)
Theorem cors_policy_decides (o : option string) :
  (Cors.origin o = allow <-> policy o)
  /\ (forall s, o = Some s -> ~ policy o -> Cors.origin o = reject s)
  /\ (forall r1 r2 : Request,
        header "origin" (headers r1) = header "origin" (headers r2) ->
        cors_decision r1 = cors_decision r2).
Proof.
  split; [|split].
  - destruct (origin_cases o) as [[Hp Ha] | [Hp [s [-> Hr]]]].
    + tauto.
    + split; [|tauto]. rewrite Hr. discriminate.
  - intros s -> Hp.
    destruct (origin_cases (Some s)) as [[Hp' _] | [_ [s' [[= <-] Hr]]]];
      [contradiction | exact Hr].
  - intros r1 r2 Heq. unfold cors_decision. now rewrite Heq.
Qed.

(** ** The handlers, case by case *)

Section Handlers.

Context `{TokenService}.

Lemma GET_expenses_ok (req : Request) (st : Store) (uid : string) :
  identity req = Some uid -> fault st = None ->
  GET_expenses req st =
    (Respond (mkResponse 200 (JsonExpenses
       (sort_by_date_desc (filter (fun e => String.eqb (Mongoose.user e) uid) (docs st))))),
     mkStore (docs st) None (S (operations st))).
Proof.
  intros Hid Hfault. unfold GET_expenses, protected.
  rewrite (auth_pass _ _ Hid).
  unfold get_expenses_handler, req_user_id, find_by_user_sorted, driver. simpl.
  now rewrite Hfault.
Qed.

Lemma GET_expenses_fault (req : Request) (st : Store) (uid msg : string) :
  identity req = Some uid -> fault st = Some msg ->
  GET_expenses req st =
    (Respond (mkResponse 500 (JsonMessage (Text msg))),
     mkStore (docs st) (Some msg) (S (operations st))).
Proof.
  intros Hid Hfault. unfold GET_expenses, protected.
  rewrite (auth_pass _ _ Hid).
  unfold get_expenses_handler, req_user_id, find_by_user_sorted, driver. simpl.
  now rewrite Hfault.
Qed.

(** A list is only ever sent for a request that passed the gate, by a
    store that answered. *)
Lemma GET_expenses_list (req : Request) (st st' : Store) (res : Response)
    (l : list Expense) :
  GET_expenses req st = (Respond res, st') -> json res = JsonExpenses l ->
  exists uid, identity req = Some uid /\ fault st = None.
Proof.
  intros Hget Hjson.
  destruct (identity req) as [uid|] eqn:Hid.
  - exists uid. split; [reflexivity|].
    destruct (fault st) as [msg|] eqn:Hfault; [|reflexivity].
    rewrite (GET_expenses_fault _ _ _ _ Hid Hfault) in Hget.
    injection Hget as <- _. discriminate.
  - unfold identity in Hid. unfold GET_expenses, protected in Hget.
    destruct (auth req) as [r|req'] eqn:Hauth.
    + injection Hget as <- _.
      unfold auth in Hauth.
      destruct (header "authorization" (headers req)) as [value|];
        [destruct (bearer_token value) as [token|];
         [destruct (verify token)|]|];
        try discriminate; injection Hauth as <-; discriminate.
    + unfold auth in Hauth.
      destruct (header "authorization" (headers req)) as [value|];
        [destruct (bearer_token value) as [token|];
         [destruct (verify token)|]|];
        try discriminate.
      injection Hauth as <-. discriminate.
Qed.

(** The document [new Expense] builds passes validation exactly when the
    description was cast to a string that is not empty and the amount is
    not [NaN]. *)
Lemma validate_new_Expense (oid : string) (now : Z) (uid : string)
    (description : Value) (n : number) :
  match castString description, isNaN n with
  | Set_to (String c r), false =>
      validate (new_Expense oid now uid description n) = []
      /\ to_record (new_Expense oid now uid description n)
         = Some (mkExpense oid uid (String c r) n now)
  | _, _ => validate (new_Expense oid now uid description n) <> []
  end.
Proof.
  unfold validate, to_record, new_Expense, castNumber. simpl.
  destruct (castString description) as [[|c r]| |kind]; destruct (isNaN n);
    simpl; try discriminate.
  split; reflexivity.
Qed.

(** When [POST /expenses] answers with a created record, the request
    passed the gate and both checks, the store answered, and the record is
    the one built from the resolved identity, the cast description, the
    coerced amount and the clock. *)
Lemma POST_expenses_created (oid : string) (now : Z) (req : Request)
    (st : Store) (e : Expense) :
  created (fst (POST_expenses oid now req st)) = Some e ->
  exists uid n,
    identity req = Some uid
    /\ ToNumber (get "amount" (body req)) = Normal n
    /\ isNaN n = false
    /\ castString (get "description" (body req)) = Set_to (description e)
    /\ e = mkExpense oid uid (description e) n now
    /\ fault st = None
    /\ POST_expenses oid now req st =
         (Respond (mkResponse 201 (JsonExpense e)),
          mkStore (docs st ++ [e]) None (S (operations st))).
Proof.
  unfold POST_expenses, protected, identity.
  destruct (auth req) as [r|req'] eqn:Hauth.
  - unfold auth in Hauth.
    destruct (header "authorization" (headers req)) as [value|];
      [destruct (bearer_token value) as [token|];
       [destruct (verify token)|]|];
      try discriminate; injection Hauth as <-; discriminate.
  - assert (exists uid, req' = mkRequest (headers req) (body req) (Some (mkAuthUser uid)))
      as [uid ->].
    { unfold auth in Hauth.
      destruct (header "authorization" (headers req)) as [value|];
        [destruct (bearer_token value) as [token|];
         [destruct (verify token) as [uid|]|]|];
        try discriminate.
      injection Hauth as <-. now exists uid. }
    unfold post_expenses_handler, req_user_id. simpl.
    destruct (falsy (get "description" (body req)) || falsy (get "amount" (body req)));
      [discriminate|].
    destruct (ToNumber (get "amount" (body req))) as [n|err]; [|discriminate].
    pose proof (validate_new_Expense oid now uid (get "description" (body req)) n) as Hv.
    unfold save.
    destruct (castString (get "description" (body req))) as [[|c r]| |kind] eqn:Hcast;
      destruct (isNaN n) eqn:Hnan;
      try (destruct (validate _); [congruence | discriminate]).
    destruct Hv as [-> ->]. unfold driver.
    destruct (fault st) as [msg|] eqn:Hfault; simpl; [discriminate|].
    intros [= <-]. exists uid, n. simpl. repeat split; try reflexivity.
    exact Hnan.
Qed.

(** The route on a request that passed the gate. *)
Lemma POST_expenses_pass (oid : string) (now : Z) (req : Request) (st : Store)
    (uid : string) :
  identity req = Some uid ->
  POST_expenses oid now req st =
    post_expenses_handler oid now
      (mkRequest (headers req) (body req) (Some (mkAuthUser uid))) st.
Proof.
  intros Hid. unfold POST_expenses, protected. now rewrite (auth_pass _ _ Hid).
Qed.

Lemma POST_expenses_required (oid : string) (now : Z) (req : Request)
    (st : Store) (uid : string) :
  identity req = Some uid -> passes_guard req = false ->
  POST_expenses oid now req st =
    (Respond (mkResponse 400 (JsonMessage required_message)), st).
Proof.
  intros Hid Hguard. rewrite (POST_expenses_pass _ _ _ _ _ Hid).
  unfold post_expenses_handler, passes_guard in *. simpl.
  apply negb_false_iff in Hguard. now rewrite Hguard.
Qed.

Lemma POST_expenses_invalid (oid : string) (now : Z) (req : Request)
    (st : Store) (uid : string) (n : number) :
  identity req = Some uid -> passes_guard req = true ->
  ToNumber (get "amount" (body req)) = Normal n ->
  validate (new_Expense oid now uid (get "description" (body req)) n) <> [] ->
  POST_expenses oid now req st =
    (Respond (mkResponse 400 (JsonMessage (ValidationFailed "Expense"
       (validate (new_Expense oid now uid (get "description" (body req)) n))))),
     st).
Proof.
  intros Hid Hguard Hnum Herrs. rewrite (POST_expenses_pass _ _ _ _ _ Hid).
  unfold post_expenses_handler, passes_guard, req_user_id in *. simpl.
  apply negb_true_iff in Hguard. rewrite Hguard, Hnum. unfold save.
  destruct (validate _); [congruence | reflexivity].
Qed.

Lemma POST_expenses_valid (oid : string) (now : Z) (req : Request)
    (st : Store) (uid : string) (n : number) :
  identity req = Some uid -> passes_guard req = true ->
  ToNumber (get "amount" (body req)) = Normal n ->
  validate (new_Expense oid now uid (get "description" (body req)) n) = [] ->
  exists d,
    castString (get "description" (body req)) = Set_to d /\ d <> "" /\ isNaN n = false
    /\ POST_expenses oid now req st =
         match fault st with
         | None =>
             (Respond (mkResponse 201 (JsonExpense (mkExpense oid uid d n now))),
              mkStore (docs st ++ [mkExpense oid uid d n now]) None (S (operations st)))
         | Some msg =>
             (Respond (mkResponse 400 (JsonMessage (Text msg))),
              mkStore (docs st) (Some msg) (S (operations st)))
         end.
Proof.
  intros Hid Hguard Hnum Hok. rewrite (POST_expenses_pass _ _ _ _ _ Hid).
  unfold post_expenses_handler, passes_guard, req_user_id in *. simpl.
  apply negb_true_iff in Hguard. rewrite Hguard, Hnum.
  pose proof (validate_new_Expense oid now uid (get "description" (body req)) n) as Hv.
  destruct (castString (get "description" (body req))) as [[|c r]| |kind];
    destruct (isNaN n); try contradiction.
  destruct Hv as [_ Hrec]. exists (String c r).
  repeat split; [discriminate|].
  unfold save, driver. rewrite Hok, Hrec.
  destruct (fault st) as [msg|] eqn:Hfault; unfold try_catch; simpl; rewrite ?Hfault; reflexivity.
Qed.

(** The handler reads [description] and [amount] of the body and nothing
    else: properties outside these two do not change what it does. *)
Lemma POST_expenses_frame (keys : list string) (oid : string) (now : Z)
    (r1 r2 : Request) (st : Store) :
  ~ In "description" keys -> ~ In "amount" keys ->
  same_but keys r1 r2 ->
  POST_expenses oid now r1 st = POST_expenses oid now r2 st.
Proof.
  intros Hd Ha (Hh & Hu & Hb).
  unfold POST_expenses, protected, auth. rewrite Hh.
  destruct (header "authorization" (headers r2)) as [value|]; [|reflexivity].
  destruct (bearer_token value) as [token|]; [|reflexivity].
  destruct (verify token) as [uid|]; [|reflexivity].
  unfold post_expenses_handler. simpl.
  now rewrite (Hb "description" Hd), (Hb "amount" Ha).
Qed.

End Handlers.

(** ** Listing expenses *)

(** C1: per-user isolation.  For two distinct users A and B, a list that
    [GET /expenses] returns to A holds exactly the stored expenses whose
    owning user is A, the identity the gate resolved: none of them is
    owned by B, and no expense that a [POST /expenses] of B created is
    among them.  The statement is symmetric in A and B. *)
Theorem expenses_isolated `{TokenService}
    (reqA reqB : Request) (A B : string) (st st' : Store)
    (res : Response) (l : list Expense) :
  identity reqA = Some A -> identity reqB = Some B -> A <> B ->
  GET_expenses reqA st = (Respond res, st') -> json res = JsonExpenses l ->
  (forall e, In e l <-> In e (docs st) /\ Mongoose.user e = A)
  /\ (forall e, In e l -> Mongoose.user e <> B)
  /\ (forall oid now st0 e,
        created (fst (POST_expenses oid now reqB st0)) = Some e -> ~ In e l).
Proof.
  intros HA HB Hneq Hget Hjson.
  destruct (GET_expenses_list _ _ _ _ _ Hget Hjson) as [uid [Hid Hfault]].
  assert (uid = A) as -> by congruence.
  rewrite (GET_expenses_ok _ _ _ HA Hfault) in Hget.
  injection Hget as <- _. simpl in Hjson. injection Hjson as <-.
  assert (Hmem : forall e,
    In e (sort_by_date_desc (filter (fun e => String.eqb (Mongoose.user e) A) (docs st)))
    <-> In e (docs st) /\ Mongoose.user e = A).
  { intros e. rewrite sort_by_date_desc_In, filter_In, String.eqb_eq. tauto. }
  split; [exact Hmem | split].
  - intros e He. apply Hmem in He. destruct He as [_ ->]. exact Hneq.
  - intros oid now st0 e Hcreated He.
    apply POST_expenses_created in Hcreated.
    destruct Hcreated as (uid & n & Hid' & _ & _ & _ & He' & _).
    apply Hmem in He. destruct He as [_ Hown].
    rewrite He' in Hown. simpl in Hown. congruence.
Qed.

Lemma expenses_isolated_witness :
  let reqA := request_of "token-of-alice" [] in
  let reqB := request_of "token-of-bob" [] in
  let l := [books; rent] in
  (@identity sample_tokens reqA = Some alice
   /\ @identity sample_tokens reqB = Some bob
   /\ alice <> bob
   /\ @GET_expenses sample_tokens reqA sample_store
      = (Respond (mkResponse 200 (JsonExpenses l)), mkStore [rent; lunch; books] None 1))
  /\ ((forall e, In e l <-> In e (docs sample_store) /\ Mongoose.user e = alice)
      /\ (forall e, In e l -> Mongoose.user e <> bob)
      /\ (forall oid now st0 e,
            created (fst (@POST_expenses sample_tokens oid now reqB st0))
              = Some e -> ~ In e l)).
Proof.
  cbv zeta.
  assert (Hneq : alice <> bob) by (vm_compute; discriminate).
  split.
  - repeat split; [exact Hneq].
  - apply (@expenses_isolated sample_tokens
             (request_of "token-of-alice" []) (request_of "token-of-bob" [])
             alice bob sample_store (mkStore [rent; lunch; books] None 1)
             (mkResponse 200 (JsonExpenses [books; rent])) [books; rent]);
      [reflexivity | reflexivity | exact Hneq | reflexivity | reflexivity].
Defined.

(** C6: listing order.  For an authenticated user and a store that
    answers, [GET /expenses] responds with status 200 and that user's
    expenses, sorted by date, newest first. *)
Theorem listing_newest_first `{TokenService}
    (req : Request) (st : Store) (uid : string) :
  identity req = Some uid -> fault st = None ->
  exists l,
    GET_expenses req st =
      (Respond (mkResponse 200 (JsonExpenses l)),
       mkStore (docs st) None (S (operations st)))
    /\ Permutation l (filter (fun e => String.eqb (Mongoose.user e) uid) (docs st))
    /\ newest_first l.
Proof.
  intros Hid Hfault.
  exists (sort_by_date_desc (filter (fun e => String.eqb (Mongoose.user e) uid) (docs st))).
  split; [now apply GET_expenses_ok | split].
  - apply Permutation_sym, sort_by_date_desc_perm.
  - apply sort_by_date_desc_sorted.
Qed.

Lemma listing_newest_first_witness :
  (@identity sample_tokens (request_of "token-of-alice" []) = Some alice
   /\ fault sample_store = None)
  /\ exists l,
       @GET_expenses sample_tokens (request_of "token-of-alice" []) sample_store =
         (Respond (mkResponse 200 (JsonExpenses l)),
          mkStore (docs sample_store) None (S (operations sample_store)))
       /\ Permutation l
            (filter (fun e => String.eqb (Mongoose.user e) alice) (docs sample_store))
       /\ newest_first l.
Proof.
  split; [split; reflexivity|].
  apply (@listing_newest_first sample_tokens (request_of "token-of-alice" [])
           sample_store alice); reflexivity.
Defined.

(** C10: an empty list is not an error.  For an authenticated user who
    owns no expense, [GET /expenses] responds with status 200 and the
    empty array. *)
Theorem empty_listing_succeeds `{TokenService}
    (req : Request) (st : Store) (uid : string) :
  identity req = Some uid -> fault st = None ->
  (forall e, In e (docs st) -> Mongoose.user e <> uid) ->
  fst (GET_expenses req st) = Respond (mkResponse 200 (JsonExpenses [])).
Proof.
  intros Hid Hfault Hnone.
  rewrite (GET_expenses_ok _ _ _ Hid Hfault). simpl.
  replace (filter (fun e => String.eqb (Mongoose.user e) uid) (docs st)) with (@nil Expense);
    [reflexivity|].
  symmetry. induction (docs st) as [|x l IH]; simpl; [reflexivity|].
  destruct (String.eqb (Mongoose.user x) uid) eqn:Heq.
  - apply String.eqb_eq in Heq. exfalso. apply (Hnone x); [now left | exact Heq].
  - apply IH. intros e He. apply Hnone. now right.
Qed.

Lemma empty_listing_succeeds_witness :
  (@identity sample_tokens (request_of "token-of-bob" []) = Some bob
   /\ fault (mkStore [rent; books] None 0) = None
   /\ (forall e, In e (docs (mkStore [rent; books] None 0)) -> Mongoose.user e <> bob))
  /\ fst (@GET_expenses sample_tokens (request_of "token-of-bob" [])
            (mkStore [rent; books] None 0))
     = Respond (mkResponse 200 (JsonExpenses [])).
Proof.
  assert (Hnone : forall e, In e (docs (mkStore [rent; books] None 0)) ->
                            Mongoose.user e <> bob).
  { simpl. intros e [<- | [<- | []]]; vm_compute; discriminate. }
  split; [repeat split; exact Hnone|].
  apply (@empty_listing_succeeds sample_tokens (request_of "token-of-bob" [])
           (mkStore [rent; books] None 0) bob); [reflexivity | reflexivity | exact Hnone].
Defined.

(** ** Creating an expense *)

(** C2: the owner is never supplied by the client.  Two requests that are
    identical except for a [user] or [owner] property of the body get the
    same outcome on the same store, and the owning user of a created
    expense is the identity the gate resolved. *)
Theorem owner_is_resolved_identity `{TokenService}
    (oid : string) (now : Z) (r1 r2 : Request) (st : Store) :
  same_but ["user"; "owner"] r1 r2 ->
  POST_expenses oid now r1 st = POST_expenses oid now r2 st
  /\ (forall e, created (fst (POST_expenses oid now r1 st)) = Some e ->
        identity r1 = Some (Mongoose.user e)
        /\ identity r2 = Some (Mongoose.user e)).
Proof.
  intros Hsame. split.
  - apply (POST_expenses_frame ["user"; "owner"]); [| |exact Hsame];
      simpl; intuition discriminate.
  - intros e Hcreated. apply POST_expenses_created in Hcreated.
    destruct Hcreated as (uid & n & Hid & _ & _ & _ & He & _).
    rewrite He. simpl.
    destruct Hsame as (Hh & _). rewrite <- (identity_headers r1 r2 Hh).
    now split.
Qed.

Lemma owner_is_resolved_identity_witness :
  let r1 := request_of "token-of-alice" coffee_body in
  let r2 := request_of "token-of-alice" (("user", Str bob) :: coffee_body) in
  same_but ["user"; "owner"] r1 r2
  /\ (@POST_expenses sample_tokens "e4" 4000 r1 sample_store
      = @POST_expenses sample_tokens "e4" 4000 r2 sample_store
      /\ (forall e,
            created (fst (@POST_expenses sample_tokens "e4" 4000 r1
                            sample_store)) = Some e ->
            @identity sample_tokens r1 = Some (Mongoose.user e)
            /\ @identity sample_tokens r2 = Some (Mongoose.user e))).
Proof.
  cbv zeta.
  assert (Hsame : same_but ["user"; "owner"]
            (request_of "token-of-alice" coffee_body)
            (request_of "token-of-alice" (("user", Str bob) :: coffee_body))).
  { split; [reflexivity | split; [reflexivity|]].
    intros k Hk. simpl.
    destruct (String.eqb k "user") eqn:Hu; [|reflexivity].
    apply String.eqb_eq in Hu. subst k. exfalso. apply Hk. now left. }
  split; [exact Hsame|].
  apply (@owner_is_resolved_identity sample_tokens "e4" 4000
           (request_of "token-of-alice" coffee_body)
           (request_of "token-of-alice" (("user", Str bob) :: coffee_body))
           sample_store Hsame).
Defined.

(** C9: a date supplied by the client is ignored.  Two requests that
    differ only in a [date] property of the body get the same outcome on
    the same store at the same time, and the date of a created expense is
    the time the server read from its clock when it built the document. *)
Theorem client_date_ignored `{TokenService}
    (oid : string) (now : Z) (r1 r2 : Request) (st : Store) :
  same_but ["date"] r1 r2 ->
  POST_expenses oid now r1 st = POST_expenses oid now r2 st
  /\ (forall e, created (fst (POST_expenses oid now r1 st)) = Some e -> date e = now)
  /\ (forall e, created (fst (POST_expenses oid now r2 st)) = Some e -> date e = now).
Proof.
  intros Hsame.
  assert (Hdate : forall r e,
            created (fst (POST_expenses oid now r st)) = Some e -> date e = now).
  { intros r e Hcreated. apply POST_expenses_created in Hcreated.
    destruct Hcreated as (uid & n & _ & _ & _ & _ & He & _). now rewrite He. }
  split; [|split; apply Hdate].
  apply (POST_expenses_frame ["date"]); [| |exact Hsame];
    simpl; intuition discriminate.
Qed.

Lemma client_date_ignored_witness :
  let r1 := request_of "token-of-alice" coffee_body in
  let r2 := request_of "token-of-alice" (("date", Str "1999-01-01") :: coffee_body) in
  same_but ["date"] r1 r2
  /\ (@POST_expenses sample_tokens "e4" 4000 r1 sample_store
      = @POST_expenses sample_tokens "e4" 4000 r2 sample_store
      /\ (forall e,
            created (fst (@POST_expenses sample_tokens "e4" 4000 r1
                            sample_store)) = Some e -> date e = 4000)
      /\ (forall e,
            created (fst (@POST_expenses sample_tokens "e4" 4000 r2
                            sample_store)) = Some e -> date e = 4000)).
Proof.
  cbv zeta.
  assert (Hsame : same_but ["date"]
            (request_of "token-of-alice" coffee_body)
            (request_of "token-of-alice" (("date", Str "1999-01-01") :: coffee_body))).
  { split; [reflexivity | split; [reflexivity|]].
    intros k Hk. simpl.
    destruct (String.eqb k "date") eqn:Hd; [|reflexivity].
    apply String.eqb_eq in Hd. subst k. exfalso. apply Hk. now left. }
  split; [exact Hsame|].
  apply (@client_date_ignored sample_tokens "e4" 4000
           (request_of "token-of-alice" coffee_body)
           (request_of "token-of-alice" (("date", Str "1999-01-01") :: coffee_body))
           sample_store Hsame).
Defined.

(** C7: amount coercion.  For an authenticated request with a description
    that is a non-empty string and an amount that is a numeric string, on
    a store that answers, [POST /expenses] responds with status 201 and
    the created record; the record is stored, and its amount is the
    number the string coerces to. *)
Theorem amount_is_coerced `{TokenService}
    (oid : string) (now : Z) (req : Request) (st : Store) (uid s : string) :
  identity req = Some uid -> fault st = None ->
  spec_description_ok (get "description" (body req)) = true ->
  get "amount" (body req) = Str s -> numeric_string s = true ->
  exists e,
    POST_expenses oid now req st =
      (Respond (mkResponse 201 (JsonExpense e)),
       mkStore (docs st ++ [e]) None (S (operations st)))
    /\ amount e = StringToNumber s
    /\ isFinite (amount e) = true
    /\ Mongoose.user e = uid.
Proof.
  intros Hid Hfault Hdesc Hamount Hnum.
  unfold numeric_string in Hnum. apply andb_true_iff in Hnum.
  destruct Hnum as [Hne Hfin]. apply negb_true_iff in Hne.
  assert (Hnan : isNaN (StringToNumber s) = false)
    by (destruct (StringToNumber s); try discriminate; reflexivity).
  destruct (get "description" (body req)) as [| | | |d| |] eqn:Hd; try discriminate.
  destruct d as [|c r]; [discriminate|].
  assert (Hguard : passes_guard req = true).
  { unfold passes_guard. rewrite Hd, Hamount.
    destruct s; [discriminate | reflexivity]. }
  assert (Hto : ToNumber (get "amount" (body req)) = Normal (StringToNumber s))
    by now rewrite Hamount.
  pose proof (validate_new_Expense oid now uid (get "description" (body req))
                (StringToNumber s)) as Hv.
  rewrite Hd in Hv. simpl in Hv. rewrite Hnan in Hv. destruct Hv as [Hv _].
  rewrite <- Hd in Hv.
  destruct (POST_expenses_valid oid now req st uid _ Hid Hguard Hto Hv)
    as (d & Hcast & _ & _ & Hpost).
  rewrite Hfault in Hpost.
  exists (mkExpense oid uid d (StringToNumber s) now).
  repeat split; [exact Hpost | exact Hfin].
Qed.

(** ["3.50"] coerces to 3.5, that is 7/2. *)
Lemma three_and_a_half_is_seven_halves :
  StringToNumber "3.50" = three_and_a_half
  /\ SFdiv prec emax (of_Z 7) (of_Z 2) = three_and_a_half.
Proof. split; vm_compute; reflexivity. Qed.

Lemma amount_is_coerced_witness :
  let req := request_of "token-of-alice" coffee_body in
  (@identity sample_tokens req = Some alice
   /\ fault empty_store = None
   /\ spec_description_ok (get "description" (body req)) = true
   /\ get "amount" (body req) = Str "3.50"
   /\ numeric_string "3.50" = true)
  /\ exists e,
       @POST_expenses sample_tokens "e4" 4000 req empty_store =
         (Respond (mkResponse 201 (JsonExpense e)),
          mkStore (docs empty_store ++ [e]) None (S (operations empty_store)))
       /\ amount e = three_and_a_half
       /\ Mongoose.user e = alice.
Proof.
  cbv zeta. split; [repeat split; vm_compute; reflexivity|].
  destruct (@amount_is_coerced sample_tokens "e4" 4000
              (request_of "token-of-alice" coffee_body) empty_store alice "3.50"
              eq_refl eq_refl eq_refl eq_refl eq_refl)
    as (e & Hpost & Hamount & _ & Huser).
  exists e. split; [exact Hpost | split; [|exact Huser]].
  rewrite Hamount. vm_compute. reflexivity.
Defined.

(** The scenario of the specification, end to end: the expense created
    from ["3.50"] comes back first in the list of its owner, before an
    older one. *)
Lemma coffee_then_listing :
  let post := @POST_expenses sample_tokens "e4" 4000
                (request_of "token-of-alice" coffee_body) sample_store in
  let coffee := mkExpense "e4" alice "coffee" three_and_a_half 4000 in
  fst post = Respond (mkResponse 201 (JsonExpense coffee))
  /\ fst (@GET_expenses sample_tokens (request_of "token-of-alice" []) (snd post))
     = Respond (mkResponse 200 (JsonExpenses [coffee; books; rent])).
Proof. split; vm_compute; reflexivity. Qed.

(** C3: the validation rule of the specification accepts a request with
    a non-empty description and the amount zero, and the handler refuses
    it: the number 0 is falsy, so [!amount] sends 400 with the message
    that description and amount are required, and nothing is stored. *)
Theorem zero_amount_rejected `{TokenService}
    (oid : string) (now : Z) (req : Request) (st : Store)
    (uid : string) (c : ascii) (d : string) (sign : bool) :
  identity req = Some uid ->
  get "description" (body req) = Str (String c d) ->
  get "amount" (body req) = Num (S754_zero sign) ->
  spec_valid req = true
  /\ POST_expenses oid now req st =
       (Respond (mkResponse 400 (JsonMessage required_message)), st).
Proof.
  intros Hid Hd Ha. split.
  - unfold spec_valid. now rewrite Hd, Ha.
  - apply (POST_expenses_required _ _ _ _ _ Hid).
    unfold passes_guard. now rewrite Hd, Ha.
Qed.

Lemma zero_amount_rejected_witness :
  let req := request_of "token-of-alice" free_body in
  (@identity sample_tokens req = Some alice
   /\ get "description" (body req) = Str "coffee"
   /\ get "amount" (body req) = Num (S754_zero false))
  /\ (@spec_valid req = true
      /\ @POST_expenses sample_tokens "e4" 4000 req empty_store =
           (Respond (mkResponse 400 (JsonMessage required_message)), empty_store)).
Proof.
  cbv zeta. split; [repeat split|].
  apply (@zero_amount_rejected sample_tokens "e4" 4000
           (request_of "token-of-alice" free_body) empty_store alice
           "c"%char "offee" false); reflexivity.
Defined.

(** The same amount written as the string ["0"] is accepted and stored as
    the number zero. *)
Lemma zero_string_accepted :
  @POST_expenses sample_tokens "e4" 4000
    (request_of "token-of-alice" [("description", Str "coffee"); ("amount", Str "0")])
    empty_store
  = (Respond (mkResponse 201 (JsonExpense (mkExpense "e4" alice "coffee" pos_zero 4000))),
     mkStore [mkExpense "e4" alice "coffee" pos_zero 4000] None 1).
Proof. vm_compute. reflexivity. Qed.

(** ** Failures of the persistence layer *)

(** C4: a failure of the persistence layer is mapped to status 500 by
    [GET /expenses] and not by [POST /expenses].  For a request that
    passed the gate and a store whose driver raises an error: the catch
    block of [GET /expenses] answers 500 with the message of the error;
    a [POST /expenses] request that passes the presence check and the
    schema validation reaches the store through [save], and the catch
    block around [save] answers the failure with status 400, not 500,
    and the message of the error. *)
Theorem post_store_failure_answers_400 `{TokenService}
    (oid : string) (now : Z) (req : Request) (st : Store)
    (uid : string) (n : number) (msg : string) :
  identity req = Some uid -> fault st = Some msg ->
  passes_guard req = true ->
  ToNumber (get "amount" (body req)) = Normal n ->
  validate (new_Expense oid now uid (get "description" (body req)) n) = [] ->
  fst (GET_expenses req st) = Respond (mkResponse 500 (JsonMessage (Text msg)))
  /\ exists res,
       fst (POST_expenses oid now req st) = Respond res
       /\ json res = JsonMessage (Text msg)
       /\ status res = 400
       /\ status res <> 500.
Proof.
  intros Hid Hfault Hguard Hnum Hok. split.
  - now rewrite (GET_expenses_fault _ _ _ _ Hid Hfault).
  - destruct (POST_expenses_valid oid now req st uid n Hid Hguard Hnum Hok)
      as (d & _ & _ & _ & Hpost).
    rewrite Hfault in Hpost. rewrite Hpost.
    exists (mkResponse 400 (JsonMessage (Text msg))).
    repeat split. simpl. discriminate.
Qed.

Lemma post_store_failure_answers_400_witness :
  let req := request_of "token-of-alice" coffee_body in
  (@identity sample_tokens req = Some alice
   /\ fault broken_store = Some "connection lost"
   /\ passes_guard req = true
   /\ ToNumber (get "amount" (body req)) = Normal three_and_a_half
   /\ validate (new_Expense "e4" 4000 alice (get "description" (body req))
                  three_and_a_half) = [])
  /\ (fst (@GET_expenses sample_tokens req broken_store)
        = Respond (mkResponse 500 (JsonMessage (Text "connection lost")))
      /\ exists res,
           fst (@POST_expenses sample_tokens "e4" 4000 req broken_store) = Respond res
           /\ json res = JsonMessage (Text "connection lost")
           /\ status res = 400
           /\ status res <> 500).
Proof.
  cbv zeta. split; [repeat split; vm_compute; reflexivity|].
  apply (@post_store_failure_answers_400 sample_tokens "e4" 4000
           (request_of "token-of-alice" coffee_body) broken_store alice
           three_and_a_half "connection lost");
    vm_compute; reflexivity.
Defined.

(** ** Start-up *)

Module StartupFacts.

Import Startup.

Lemma invariant_start (env_port : option string) : invariant (start env_port).
Proof. split; [discriminate | intros req c []]. Qed.

Lemma invariant_step (p : Process) (ev : Event) :
  invariant p -> invariant (step p ev).
Proof.
  intros Hinv. pose proof Hinv as [Hexit Hserved]. unfold step.
  destruct (exit_code p) as [k|] eqn:Hcode; [exact Hinv|].
  assert (Hlive : has_failed (connection p) = false).
  { destruct (connection p) as [| |err'] eqn:Hconn; try reflexivity.
    specialize (Hexit err' eq_refl). discriminate. }
  destruct ev as [|err| |req].
  - destruct (connection p) eqn:Hconn; try exact Hinv.
    split; simpl; [discriminate | exact Hserved].
  - destruct (connection p) eqn:Hconn; try exact Hinv.
    split; simpl; [reflexivity | exact Hserved].
  - split; simpl; [|exact Hserved].
    intros err Hconn. rewrite Hconn in Hlive. discriminate.
  - destruct (listening p); [|exact Hinv].
    split; simpl.
    + intros err Hconn. rewrite Hconn in Hlive. discriminate.
    + intros r c Hin. apply in_app_or in Hin.
      destruct Hin as [Hin | [[= <- <-] | []]];
        [now apply (Hserved r c) | exact Hlive].
Qed.

Lemma invariant_run (events : list Event) (p : Process) :
  invariant p -> invariant (run p events).
Proof.
  revert p. induction events as [|ev events IH]; intros p Hinv; simpl.
  - exact Hinv.
  - apply IH, invariant_step, Hinv.
Qed.

(** A process that has exited stays as it is. *)
Lemma run_exited (events : list Event) (p : Process) (k : Z) :
  exit_code p = Some k -> run p events = p.
Proof.
  intros Hcode. induction events as [|ev events IH]; [reflexivity|].
  change (run (step p ev) events = p).
  replace (step p ev) with p; [exact IH|].
  unfold step. now rewrite Hcode.
Qed.

Lemma run_app (p : Process) (before after : list Event) :
  run p (before ++ after) = run (run p before) after.
Proof. unfold run. apply fold_left_app. Qed.

(** The rejection of the pending connection. *)
Lemma step_rejected (p : Process) (err : string) :
  exit_code p = None -> connection p = Pending ->
  step p (ConnectRejected err) =
    mkProcess (port p) (Failed err) (listening p) (Some 1)
      (log p ("MongoDB connection error: " ++ err)) (served p).
Proof. intros Hcode Hpending. unfold step. now rewrite Hcode, Hpending. Qed.

End StartupFacts.

(** C8: fail-fast start-up.  Whatever the event loop delivers after the
    script has run, a connection that has failed means the process has
    exited with code 1, and no request was ever dispatched under a failed
    connection; when the pending connection is rejected the process exits
    with code 1 in that very turn, and of the events that follow none is
    served. *)
Theorem startup_fails_fast (env_port : option string) (events : list Startup.Event) :
  let final := Startup.run (Startup.start env_port) events in
  (forall err, Startup.connection final = Startup.Failed err ->
     Startup.exit_code final = Some 1)
  /\ (forall req c, In (req, c) (Startup.served final) -> Startup.has_failed c = false)
  /\ (forall before err after,
        events = (before ++ Startup.ConnectRejected err :: after)%list ->
        let p := Startup.run (Startup.start env_port) before in
        Startup.connection p = Startup.Pending ->
        Startup.exit_code p = None ->
        Startup.connection final = Startup.Failed err
        /\ Startup.exit_code final = Some 1
        /\ Startup.served final = Startup.served p).
Proof.
  cbv zeta.
  pose proof (StartupFacts.invariant_run events _ (StartupFacts.invariant_start env_port))
    as [Hexit Hserved].
  split; [exact Hexit | split; [exact Hserved|]].
  intros before err after -> Hpending Hcode.
  rewrite StartupFacts.run_app.
  change (Startup.run (Startup.run (Startup.start env_port) before)
            (Startup.ConnectRejected err :: after))
    with (Startup.run (Startup.step (Startup.run (Startup.start env_port) before)
                         (Startup.ConnectRejected err)) after).
  rewrite (StartupFacts.step_rejected _ err Hcode Hpending).
  rewrite StartupFacts.run_exited with (k := 1) by reflexivity.
  simpl. repeat split.
Qed.

Lemma startup_fails_fast_witness :
  let r := request_of "token-of-alice" [] in
  let events := [Startup.Listening; Startup.Incoming r;
                 Startup.ConnectRejected "ECONNREFUSED";
                 Startup.Incoming r; Startup.ConnectFulfilled] in
  let final := Startup.run (Startup.start None) events in
  Startup.exit_code final = Some 1
  /\ Startup.served final = [(r, Startup.Pending)].
Proof.
  cbv zeta.
  pose proof (startup_fails_fast None
    [Startup.Listening; Startup.Incoming (request_of "token-of-alice" []);
     Startup.ConnectRejected "ECONNREFUSED";
     Startup.Incoming (request_of "token-of-alice" []);
     Startup.ConnectFulfilled]) as (_ & _ & Hreject).
  destruct (Hreject [Startup.Listening; Startup.Incoming (request_of "token-of-alice" [])]
              "ECONNREFUSED"
              [Startup.Incoming (request_of "token-of-alice" []); Startup.ConnectFulfilled]
              eq_refl eq_refl eq_refl) as (_ & Hcode & Hserved).
  split; [exact Hcode | exact Hserved].
Defined.

(* ================================================================== *)
(** * Further properties of the routes *)
(* ================================================================== *)

Section Effects.

Context `{TokenService}.

(** A request the gate stops. *)
Lemma auth_stop (req : Request) :
  identity req = None -> auth req = inl Unauthorized.
Proof.
  unfold identity, auth.
  destruct (header "authorization" (headers req)) as [value|]; [|reflexivity].
  destruct (bearer_token value) as [token|]; [|reflexivity].
  destruct (verify token) as [uid|]; [discriminate | reflexivity].
Qed.

(** What [POST /expenses] does to the store: nothing, or one record at
    the end of the collection, sent back with status 201. *)
Lemma POST_expenses_effect (oid : string) (now : Z) (req : Request) (st : Store) :
  fault (snd (POST_expenses oid now req st)) = fault st
  /\ ((docs (snd (POST_expenses oid now req st)) = docs st
       /\ created (fst (POST_expenses oid now req st)) = None)
      \/ exists e,
           fst (POST_expenses oid now req st) = Respond (mkResponse 201 (JsonExpense e))
           /\ docs (snd (POST_expenses oid now req st)) = (docs st ++ [e])%list).
Proof.
  destruct (created (fst (POST_expenses oid now req st))) as [e|] eqn:Hcreated.
  - apply POST_expenses_created in Hcreated.
    destruct Hcreated as (uid & n & _ & _ & _ & _ & _ & Hfault & Hpost).
    rewrite Hpost. simpl. split; [symmetry; exact Hfault|].
    right. exists e. split; reflexivity.
  - revert Hcreated. unfold POST_expenses, protected.
    destruct (auth req) as [r|req']; [intros _; simpl; auto|].
    unfold post_expenses_handler.
    destruct (falsy (get "description" (body req')) || falsy (get "amount" (body req')));
      [intros _; simpl; auto|].
    destruct (req_user_id req') as [uid|err]; [|intros _; simpl; auto].
    destruct (ToNumber (get "amount" (body req'))) as [n|err]; [|intros _; simpl; auto].
    unfold save.
    destruct (validate _) as [|x errs]; [|intros _; simpl; auto].
    destruct (to_record _) as [e|]; [|intros _; simpl; auto].
    unfold driver. destruct (fault st) as [msg|] eqn:Hfault; simpl.
    + intros _. auto.
    + discriminate.
Qed.

(** The response of [GET /expenses] is a function of the identity, of
    the state of the driver and of the listing. *)
Lemma GET_expenses_response (req : Request) (st : Store) :
  fst (GET_expenses req st) =
    match identity req, fault st with
    | None, _ => Respond Unauthorized
    | Some uid, None => Respond (mkResponse 200 (JsonExpenses (listing uid st)))
    | Some uid, Some msg => Respond (mkResponse 500 (JsonMessage (Text msg)))
    end.
Proof.
  destruct (identity req) as [uid|] eqn:Hid.
  - destruct (fault st) as [msg|] eqn:Hfault.
    + now rewrite (GET_expenses_fault _ _ _ _ Hid Hfault).
    + now rewrite (GET_expenses_ok _ _ _ Hid Hfault).
  - unfold GET_expenses, protected. now rewrite (auth_stop _ Hid).
Qed.

Lemma GET_expenses_store (req : Request) (st : Store) :
  docs (snd (GET_expenses req st)) = docs st
  /\ fault (snd (GET_expenses req st)) = fault st.
Proof.
  destruct (identity req) as [uid|] eqn:Hid.
  - destruct (fault st) as [msg|] eqn:Hfault.
    + rewrite (GET_expenses_fault _ _ _ _ Hid Hfault). simpl. auto.
    + rewrite (GET_expenses_ok _ _ _ Hid Hfault). simpl. auto.
  - unfold GET_expenses, protected. rewrite (auth_stop _ Hid). simpl. auto.
Qed.

(** A created record is owned by the identity of its request. *)
Lemma POST_expenses_owner (oid : string) (now : Z) (req : Request) (st : Store)
    (e : Expense) :
  fst (POST_expenses oid now req st) = Respond (mkResponse 201 (JsonExpense e)) ->
  identity req = Some (Mongoose.user e).
Proof.
  intros Hpost.
  assert (Hcreated : created (fst (POST_expenses oid now req st)) = Some e)
    by now rewrite Hpost.
  apply POST_expenses_created in Hcreated.
  destruct Hcreated as (uid & n & Hid & _ & _ & _ & He & _).
  rewrite He. exact Hid.
Qed.

(** A request of another user leaves the listing of [uid] as it was. *)
Lemma POST_expenses_listing (oid : string) (now : Z) (req : Request) (st : Store)
    (uid : string) :
  identity req <> Some uid ->
  listing uid (snd (POST_expenses oid now req st)) = listing uid st.
Proof.
  intros Hother. unfold listing.
  destruct (POST_expenses_effect oid now req st) as [_ [[-> _] | (e & Hpost & ->)]];
    [reflexivity|].
  rewrite filter_app. simpl.
  destruct (String.eqb (Mongoose.user e) uid) eqn:Heq.
  - apply String.eqb_eq in Heq. apply POST_expenses_owner in Hpost.
    congruence.
  - now rewrite app_nil_r.
Qed.

Lemma run_posts_fault (posts : list (string * Z * Request)) (st : Store) :
  fault (run_posts posts st) = fault st.
Proof.
  revert st. induction posts as [|[[oid now] req] posts IH]; intros st; simpl.
  - reflexivity.
  - rewrite IH. apply POST_expenses_effect.
Qed.

End Effects.

(** ** Creating, then listing *)

(** X1: an expense that [POST /expenses] created is in the next listing
    of its owner, which holds it together with what the owner had
    before. *)
Theorem created_expense_is_listed `{TokenService}
    (oid : string) (now : Z) (reqP reqG : Request) (st : Store) (e : Expense) :
  created (fst (POST_expenses oid now reqP st)) = Some e ->
  identity reqG = Some (Mongoose.user e) ->
  exists l,
    fst (GET_expenses reqG (snd (POST_expenses oid now reqP st)))
      = Respond (mkResponse 200 (JsonExpenses l))
    /\ In e l
    /\ Permutation l (e :: listing (Mongoose.user e) st)
    /\ newest_first l.
Proof.
  intros Hcreated Hid.
  apply POST_expenses_created in Hcreated.
  destruct Hcreated as (uid & n & _ & _ & _ & _ & _ & _ & Hpost).
  rewrite Hpost. simpl snd.
  exists (listing (Mongoose.user e) (mkStore (docs st ++ [e]) None (S (operations st)))).
  rewrite GET_expenses_response, Hid. simpl fault. cbv iota.
  assert (Hperm : Permutation
            (listing (Mongoose.user e) (mkStore (docs st ++ [e]) None (S (operations st))))
            (e :: listing (Mongoose.user e) st)).
  { unfold listing. simpl docs. rewrite filter_app. simpl.
    rewrite String.eqb_refl.
    eapply perm_trans; [apply Permutation_sym, sort_by_date_desc_perm|].
    eapply perm_trans; [apply Permutation_sym, Permutation_cons_append|].
    apply perm_skip, sort_by_date_desc_perm. }
  split; [reflexivity | split; [|split]].
  - eapply Permutation_in; [apply Permutation_sym, Hperm | now left].
  - exact Hperm.
  - apply sort_by_date_desc_sorted.
Qed.

Lemma created_expense_is_listed_witness :
  let reqP := request_of "token-of-alice" coffee_body in
  let reqG := request_of "token-of-alice" [] in
  let e := mkExpense "e4" alice "coffee" three_and_a_half 4000 in
  (created (fst (@POST_expenses sample_tokens "e4" 4000 reqP sample_store)) = Some e
   /\ @identity sample_tokens reqG = Some (Mongoose.user e))
  /\ exists l,
       fst (@GET_expenses sample_tokens reqG
              (snd (@POST_expenses sample_tokens "e4" 4000 reqP sample_store)))
         = Respond (mkResponse 200 (JsonExpenses l))
       /\ In e l
       /\ Permutation l (e :: listing (Mongoose.user e) sample_store)
       /\ newest_first l.
Proof.
  cbv zeta. split; [split; vm_compute; reflexivity|].
  apply (@created_expense_is_listed sample_tokens "e4" 4000
           (request_of "token-of-alice" coffee_body) (request_of "token-of-alice" [])
           sample_store (mkExpense "e4" alice "coffee" three_and_a_half 4000));
    vm_compute; reflexivity.
Defined.

(** X2: whatever the other users post, and however often, the listing
    of a user stays the same: a sequence of [POST /expenses] requests none
    of which is authenticated as B leaves the answer to B's
    [GET /expenses] as it was. *)
Theorem other_posts_keep_listing `{TokenService}
    (posts : list (string * Z * Request)) (reqB : Request) (B : string) (st : Store) :
  identity reqB = Some B ->
  (forall oid now req, In (oid, now, req) posts -> identity req <> Some B) ->
  fst (GET_expenses reqB (run_posts posts st)) = fst (GET_expenses reqB st).
Proof.
  intros HB Hothers.
  rewrite !GET_expenses_response, HB, run_posts_fault.
  replace (listing B (run_posts posts st)) with (listing B st); [reflexivity|].
  revert st. induction posts as [|[[oid now] req] posts IH]; intros st; simpl.
  - reflexivity.
  - rewrite <- IH.
    + symmetry. apply POST_expenses_listing. apply (Hothers oid now). now left.
    + intros oid' now' req' Hin. apply (Hothers oid' now'). now right.
Qed.

Lemma other_posts_keep_listing_witness :
  let posts := [("e4", 4000, request_of "token-of-alice" coffee_body);
                ("e5", 5000, request_of "token-of-alice" free_body);
                ("e6", 6000, request_of "no-token" coffee_body)] in
  let reqB := request_of "token-of-bob" [] in
  (@identity sample_tokens reqB = Some bob
   /\ (forall oid now req, In (oid, now, req) posts ->
         @identity sample_tokens req <> Some bob))
  /\ fst (@GET_expenses sample_tokens reqB (@run_posts sample_tokens posts sample_store))
     = fst (@GET_expenses sample_tokens reqB sample_store).
Proof.
  cbv zeta.
  assert (Hothers : forall oid now req,
            In (oid, now, req)
               [("e4", 4000, request_of "token-of-alice" coffee_body);
                ("e5", 5000, request_of "token-of-alice" free_body);
                ("e6", 6000, request_of "no-token" coffee_body)] ->
            @identity sample_tokens req <> Some bob).
  { intros oid now req [[= <- <- <-] | [[= <- <- <-] | [[= <- <- <-] | []]]];
      vm_compute; discriminate. }
  split; [split; [reflexivity | exact Hothers]|].
  apply (@other_posts_keep_listing sample_tokens
           [("e4", 4000, request_of "token-of-alice" coffee_body);
            ("e5", 5000, request_of "token-of-alice" free_body);
            ("e6", 6000, request_of "no-token" coffee_body)]
           (request_of "token-of-bob" []) bob sample_store);
    [reflexivity | exact Hothers].
Defined.


(** X4: [GET /expenses] reads only.  It leaves the collection as it is,
    so a request that follows it, the same one again or any other, gets
    the answer it would have got without it. *)
Theorem get_reads_only `{TokenService} (req next : Request) (st : Store) :
  docs (snd (GET_expenses req st)) = docs st
  /\ fst (GET_expenses next (snd (GET_expenses req st))) = fst (GET_expenses next st)
  /\ (forall oid now,
        fst (POST_expenses oid now next (snd (GET_expenses req st)))
        = fst (POST_expenses oid now next st)).
Proof.
  destruct (GET_expenses_store req st) as [Hdocs Hfault].
  split; [exact Hdocs | split].
  - rewrite !GET_expenses_response. unfold listing. now rewrite Hdocs, Hfault.
  - intros oid now. unfold POST_expenses, protected.
    destruct (auth next) as [r|req']; [reflexivity|].
    unfold post_expenses_handler.
    destruct (falsy (get "description" (body req')) || falsy (get "amount" (body req')));
      [reflexivity|].
    destruct (req_user_id req') as [uid|err]; [|reflexivity].
    destruct (ToNumber (get "amount" (body req'))) as [n|err]; [|reflexivity].
    unfold save.
    destruct (validate _) as [|x errs]; [|reflexivity].
    destruct (to_record _) as [e|]; [|reflexivity].
    unfold driver. rewrite Hfault.
    destruct (fault st); reflexivity.
Qed.

(** ** What [POST /expenses] accepts, refuses and fails on *)

(** X5: the exact condition under which [POST /expenses] creates an
    expense.  A record is created, and it is this record, exactly when
    the request passes the gate, description and amount are both truthy,
    [Number(amount)] is a number other than [NaN], the description casts
    to a string that is not empty, and the store answers. *)
Theorem post_creates_exactly_when `{TokenService}
    (oid : string) (now : Z) (req : Request) (st : Store) (e : Expense) :
  created (fst (POST_expenses oid now req st)) = Some e
  <-> exists uid n d,
        identity req = Some uid
        /\ passes_guard req = true
        /\ ToNumber (get "amount" (body req)) = Normal n
        /\ isNaN n = false
        /\ castString (get "description" (body req)) = Set_to d
        /\ d <> ""
        /\ fault st = None
        /\ e = mkExpense oid uid d n now.
Proof.
  split.
  - intros Hcreated. pose proof Hcreated as Hc.
    apply POST_expenses_created in Hc.
    destruct Hc as (uid & n & Hid & Hnum & Hnan & Hcast & He & Hfault & _).
    exists uid, n, (description e).
    assert (Hguard : passes_guard req = true).
    { destruct (passes_guard req) eqn:Hg; [reflexivity|].
      rewrite (POST_expenses_required _ _ _ _ _ Hid Hg) in Hcreated. discriminate. }
    repeat split; try assumption.
    intros Hempty.
    pose proof (validate_new_Expense oid now uid (get "description" (body req)) n) as Hv.
    rewrite Hcast, Hempty in Hv.
    rewrite (POST_expenses_invalid _ _ _ _ _ _ Hid Hguard Hnum Hv) in Hcreated.
    discriminate.
  - intros (uid & n & d & Hid & Hguard & Hnum & Hnan & Hcast & Hd & Hfault & ->).
    pose proof (validate_new_Expense oid now uid (get "description" (body req)) n) as Hv.
    rewrite Hcast, Hnan in Hv. destruct d as [|c r]; [contradiction|].
    destruct Hv as [Hv _].
    destruct (POST_expenses_valid oid now req st uid n Hid Hguard Hnum Hv)
      as (d' & Hcast' & _ & _ & Hpost).
    rewrite Hpost, Hfault. simpl. congruence.
Qed.

(** X6: an amount that arrives as a JSON number is stored as it is, with
    no check of its range: every number other than zero and [NaN], a
    negative one as well, is accepted. *)
Theorem number_amount_stored_as_is `{TokenService}
    (oid : string) (now : Z) (req : Request) (st : Store) (uid : string) (n : number) :
  identity req = Some uid -> fault st = None ->
  spec_description_ok (get "description" (body req)) = true ->
  get "amount" (body req) = Num n -> truthy (Num n) = true ->
  exists e,
    POST_expenses oid now req st =
      (Respond (mkResponse 201 (JsonExpense e)),
       mkStore (docs st ++ [e]) None (S (operations st)))
    /\ amount e = n.
Proof.
  intros Hid Hfault Hdesc Hamount Htruthy.
  destruct (get "description" (body req)) as [| | | |d| |] eqn:Hd; try discriminate.
  destruct d as [|c r]; [discriminate|].
  assert (Hnan : isNaN n = false) by (destruct n; try discriminate; reflexivity).
  assert (Hguard : passes_guard req = true).
  { unfold passes_guard. rewrite Hd, Hamount. unfold falsy. now rewrite Htruthy. }
  assert (Hnum : ToNumber (get "amount" (body req)) = Normal n) by now rewrite Hamount.
  pose proof (validate_new_Expense oid now uid (get "description" (body req)) n) as Hv.
  rewrite Hd in Hv. simpl in Hv. rewrite Hnan in Hv. destruct Hv as [Hv _].
  rewrite <- Hd in Hv.
  destruct (POST_expenses_valid oid now req st uid n Hid Hguard Hnum Hv)
    as (d & _ & _ & _ & Hpost).
  rewrite Hfault in Hpost.
  exists (mkExpense oid uid d n now). split; [exact Hpost | reflexivity].
Qed.

Lemma number_amount_stored_as_is_witness :
  let req := request_of "token-of-alice"
               [("description", Str "refund"); ("amount", Num (of_Z (-5)))] in
  (@identity sample_tokens req = Some alice
   /\ fault empty_store = None
   /\ spec_description_ok (get "description" (body req)) = true
   /\ get "amount" (body req) = Num (of_Z (-5))
   /\ truthy (Num (of_Z (-5))) = true)
  /\ exists e,
       @POST_expenses sample_tokens "e4" 4000 req empty_store =
         (Respond (mkResponse 201 (JsonExpense e)),
          mkStore (docs empty_store ++ [e]) None (S (operations empty_store)))
       /\ amount e = of_Z (-5).
Proof.
  cbv zeta. split; [repeat split; vm_compute; reflexivity|].
  apply (@number_amount_stored_as_is sample_tokens "e4" 4000
           (request_of "token-of-alice"
              [("description", Str "refund"); ("amount", Num (of_Z (-5)))])
           empty_store alice (of_Z (-5)));
    vm_compute; reflexivity.
Defined.

(** X7: an amount that is a string but not a numeric one passes the
    presence check and is refused by the schema: [Number] makes it [NaN],
    the cast to [Number] fails, and the request is answered with 400 and a
    validation error at the path [amount]; no operation is sent to the
    store. *)
Theorem non_numeric_amount_refused `{TokenService}
    (oid : string) (now : Z) (req : Request) (st : Store) (uid s : string) :
  identity req = Some uid ->
  spec_description_ok (get "description" (body req)) = true ->
  get "amount" (body req) = Str s -> s <> "" ->
  isNaN (StringToNumber s) = true ->
  POST_expenses oid now req st =
    (Respond (mkResponse 400 (JsonMessage
       (ValidationFailed "Expense" [("amount", CastFailed "Number")]))),
     st).
Proof.
  intros Hid Hdesc Hamount Hne Hnan.
  destruct (get "description" (body req)) as [| | | |d| |] eqn:Hd; try discriminate.
  destruct d as [|c r]; [discriminate|].
  assert (Hguard : passes_guard req = true).
  { unfold passes_guard. rewrite Hd, Hamount. destruct s; [contradiction | reflexivity]. }
  assert (Hnum : ToNumber (get "amount" (body req)) = Normal (StringToNumber s))
    by now rewrite Hamount.
  assert (Hv : validate (new_Expense oid now uid (get "description" (body req))
                           (StringToNumber s))
               = [("amount", CastFailed "Number")]).
  { unfold validate, new_Expense, castNumber. rewrite Hd, Hnan. reflexivity. }
  rewrite (POST_expenses_invalid _ _ _ st _ _ Hid Hguard Hnum); rewrite Hv;
    [reflexivity | discriminate].
Qed.

Lemma non_numeric_amount_refused_witness :
  let req := request_of "token-of-alice"
               [("description", Str "coffee"); ("amount", Str "three")] in
  (@identity sample_tokens req = Some alice
   /\ spec_description_ok (get "description" (body req)) = true
   /\ get "amount" (body req) = Str "three"
   /\ "three" <> ""
   /\ isNaN (StringToNumber "three") = true)
  /\ @POST_expenses sample_tokens "e4" 4000 req sample_store =
       (Respond (mkResponse 400 (JsonMessage
          (ValidationFailed "Expense" [("amount", CastFailed "Number")]))),
        sample_store).
Proof.
  cbv zeta. split; [repeat split; try (vm_compute; reflexivity); discriminate|].
  apply (@non_numeric_amount_refused sample_tokens "e4" 4000
           (request_of "token-of-alice"
              [("description", Str "coffee"); ("amount", Str "three")])
           sample_store alice "three");
    try (vm_compute; reflexivity); discriminate.
Defined.

(** X8: a description that is an array passes the presence check, since
    every array is truthy, and is refused by the schema: the cast to
    [String] fails, and the request is answered with 400 and a validation
    error at the path [description]; no operation is sent to the store. *)
Theorem array_description_refused `{TokenService}
    (oid : string) (now : Z) (req : Request) (st : Store) (uid : string)
    (items : list Value) (n : number) :
  identity req = Some uid ->
  get "description" (body req) = Arr items ->
  truthy (get "amount" (body req)) = true ->
  ToNumber (get "amount" (body req)) = Normal n -> isNaN n = false ->
  POST_expenses oid now req st =
    (Respond (mkResponse 400 (JsonMessage
       (ValidationFailed "Expense" [("description", CastFailed "string")]))),
     st).
Proof.
  intros Hid Hd Htruthy Hnum Hnan.
  assert (Hguard : passes_guard req = true).
  { unfold passes_guard, falsy. now rewrite Hd, Htruthy. }
  assert (Hv : validate (new_Expense oid now uid (get "description" (body req)) n)
               = [("description", CastFailed "string")]).
  { unfold validate, new_Expense, castNumber. rewrite Hd, Hnan. reflexivity. }
  rewrite (POST_expenses_invalid _ _ _ st _ _ Hid Hguard Hnum); rewrite Hv;
    [reflexivity | discriminate].
Qed.

Lemma array_description_refused_witness :
  let req := request_of "token-of-alice"
               [("description", Arr []); ("amount", Str "3.50")] in
  (@identity sample_tokens req = Some alice
   /\ get "description" (body req) = Arr []
   /\ truthy (get "amount" (body req)) = true
   /\ ToNumber (get "amount" (body req)) = Normal three_and_a_half
   /\ isNaN three_and_a_half = false)
  /\ @POST_expenses sample_tokens "e4" 4000 req sample_store =
       (Respond (mkResponse 400 (JsonMessage
          (ValidationFailed "Expense" [("description", CastFailed "string")]))),
        sample_store).
Proof.
  cbv zeta. split; [repeat split; vm_compute; reflexivity|].
  apply (@array_description_refused sample_tokens "e4" 4000
           (request_of "token-of-alice"
              [("description", Arr []); ("amount", Str "3.50")])
           sample_store alice [] three_and_a_half);
    vm_compute; reflexivity.
Defined.

(** X9: [Number(amount)] is evaluated before the [try] block.  When it
    throws, the handler of [POST /expenses] ends with the exception: it
    sends no response, and the store is as it was.  An amount that is an
    object with an own [toString] property makes it throw. *)
Theorem throwing_amount_is_uncaught `{TokenService}
    (oid : string) (now : Z) (req : Request) (st : Store) (uid : string)
    (props : list (string * Value)) :
  identity req = Some uid ->
  truthy (get "description" (body req)) = true ->
  get "amount" (body req) = Obj props ->
  has_own "toString" props = true ->
  POST_expenses oid now req st =
    (Uncaught (TypeError "Cannot convert object to primitive value"), st).
Proof.
  intros Hid Hdesc Hamount Hown.
  rewrite (POST_expenses_pass _ _ _ _ _ Hid).
  unfold post_expenses_handler, req_user_id, falsy. simpl.
  rewrite Hdesc, Hamount. simpl. now rewrite Hown.
Qed.

Lemma throwing_amount_is_uncaught_witness :
  let props := [("toString", Num (of_Z 1))] in
  let req := request_of "token-of-alice"
               [("description", Str "coffee"); ("amount", Obj props)] in
  (@identity sample_tokens req = Some alice
   /\ truthy (get "description" (body req)) = true
   /\ get "amount" (body req) = Obj props
   /\ has_own "toString" props = true)
  /\ @POST_expenses sample_tokens "e4" 4000 req sample_store =
       (Uncaught (TypeError "Cannot convert object to primitive value"), sample_store).
Proof.
  cbv zeta. split; [repeat split|].
  apply (@throwing_amount_is_uncaught sample_tokens "e4" 4000
           (request_of "token-of-alice"
              [("description", Str "coffee");
               ("amount", Obj [("toString", Num (of_Z 1))])])
           sample_store alice [("toString", Num (of_Z 1))]);
    reflexivity.
Defined.

(** ** More on the cross-origin policy *)

(** X13: of the four entries of [ALLOWED_ORIGINS] only
    [http://localhost:3000] matters.  The other three end with a trusted
    suffix already, so a non-empty origin is allowed exactly when it is
    [http://localhost:3000] or ends with [.vercel.app] or
    [.onrender.com]. *)
Theorem only_localhost_needs_the_list (s : string) :
  Cors.origin (Some s) = allow
  <-> s = "" \/ s = "http://localhost:3000"
      \/ ends_with s ".vercel.app" \/ ends_with s ".onrender.com".
Proof.
  assert (Htrusted : trusted_origin s
                     <-> s = "http://localhost:3000"
                         \/ ends_with s ".vercel.app" \/ ends_with s ".onrender.com").
  { unfold trusted_origin. split.
    - intros [Hin | Hsuffix]; [|tauto].
      simpl in Hin. destruct Hin as [<- | [<- | [<- | [<- | []]]]].
      + right; left. now exists "https://mern-endterm".
      + right; left. now exists "https://mern-endterm-czx9".
      + right; right. now exists "https://mern-endterm2".
      + now left.
    - intros [-> | Hsuffix]; [|tauto].
      left. simpl. tauto. }
  destruct (origin_cases (Some s)) as [[Hp Ha] | [Hp [s' [[= <-] Hr]]]].
  - split; [intros _ | intros _; exact Ha].
    destruct Hp as [Hn | [[= ->] | [s' [[= <-] Ht]]]];
      [discriminate | now left | right; now apply Htrusted].
  - split.
    + rewrite Hr. discriminate.
    + intros [-> | Ht].
      * exfalso. apply Hp. right; left. reflexivity.
      * exfalso. apply Hp. right; right. exists s. split; [reflexivity|].
        now apply Htrusted.
Qed.

(** ** More on listing and on descriptions *)

Lemma append_empty (a b : string) : a ++ b = "" -> a = "" /\ b = "".
Proof. destruct a; simpl; [auto | discriminate]. Qed.

Lemma digits_of_not_empty (z : Z) : digits_of z <> "".
Proof.
  unfold digits_of. destruct (Z.to_int z) as [d|d]; simpl; [|discriminate].
  destruct d; simpl; discriminate.
Qed.

Lemma format_digits_not_empty (s n k : Z) : format_digits s n k <> "".
Proof.
  unfold format_digits. intros Hempty.
  destruct ((k <=? n) && (n <=? 21)).
  - apply append_empty in Hempty. now apply (digits_of_not_empty s).
  - destruct ((0 <? n) && (n <=? 21)).
    + apply append_empty in Hempty. destruct Hempty as [_ Hempty]. discriminate.
    + destruct ((-6 <? n) && (n <=? 0)); [discriminate|].
      destruct (k =? 1).
      * apply append_empty in Hempty. now apply (digits_of_not_empty s).
      * apply append_empty in Hempty. destruct Hempty as [_ Hempty]. discriminate.
Qed.

(** The text of a number is never empty. *)
Lemma NumberToString_not_empty (x : number) : NumberToString x <> "".
Proof.
  unfold NumberToString. destruct x as [sx|[|]| |neg m e]; try discriminate.
  destruct (binary_round prec emax false m e) as [s|s| |s m' e'].
  - discriminate.
  - intros Hempty. apply append_empty in Hempty. destruct Hempty; discriminate.
  - discriminate.
  - destruct (fraction_of m' e') as [num den].
    destruct (shortest_digits 20 (S754_finite false m' e') num den
                (decimal_exponent num den) 1) as [[s' n] k].
    intros Hempty. apply append_empty in Hempty. destruct Hempty as [_ Hempty].
    now apply (format_digits_not_empty s' n k).
Qed.

(** After a record of [uid] came in at the end of the collection, the
    listing of [uid] is the old one and the record. *)
Lemma listing_appended (st : Store) (e : Expense) (k : nat) :
  Permutation (listing (Mongoose.user e) (mkStore (docs st ++ [e]) None k))
              (e :: listing (Mongoose.user e) st).
Proof.
  unfold listing. simpl docs. rewrite filter_app. simpl.
  rewrite String.eqb_refl.
  eapply perm_trans; [apply Permutation_sym, sort_by_date_desc_perm|].
  eapply perm_trans; [apply Permutation_sym, Permutation_cons_append|].
  apply perm_skip, sort_by_date_desc_perm.
Qed.

(** X15: a new expense comes first.  When the expenses the owner already
    has are all dated before the time the server reads from its clock,
    the next listing of the owner starts with the expense just created,
    followed by the old ones. *)
Theorem new_expense_listed_first `{TokenService}
    (oid : string) (now : Z) (reqP reqG : Request) (st : Store) (e : Expense) :
  created (fst (POST_expenses oid now reqP st)) = Some e ->
  identity reqG = Some (Mongoose.user e) ->
  (forall x, In x (docs st) -> Mongoose.user x = Mongoose.user e -> date x < now) ->
  exists rest,
    fst (GET_expenses reqG (snd (POST_expenses oid now reqP st)))
      = Respond (mkResponse 200 (JsonExpenses (e :: rest)))
    /\ Permutation rest (listing (Mongoose.user e) st).
Proof.
  intros Hcreated Hid Holder.
  apply POST_expenses_created in Hcreated.
  destruct Hcreated as (uid & n & _ & _ & _ & _ & He & _ & Hpost).
  assert (Hdate : date e = now) by now rewrite He.
  rewrite Hpost. simpl snd.
  rewrite GET_expenses_response, Hid. simpl fault. cbv iota.
  pose proof (listing_appended st e (S (operations st))) as Hperm.
  pose proof (sort_by_date_desc_sorted
                (filter (fun x => String.eqb (Mongoose.user x) (Mongoose.user e))
                   (docs (mkStore (docs st ++ [e]) None (S (operations st))))))
    as Hsorted.
  fold (listing (Mongoose.user e) (mkStore (docs st ++ [e]) None (S (operations st))))
    in Hsorted.
  destruct (listing (Mongoose.user e) (mkStore (docs st ++ [e]) None (S (operations st))))
    as [|h t] eqn:Hl.
  - apply Permutation_nil in Hperm. discriminate.
  - assert (Hhead : h = e).
    { assert (Hin : In e (h :: t))
        by (eapply Permutation_in; [apply Permutation_sym, Hperm | now left]).
      destruct Hin as [Heq | Hin]; [exact Heq|].
      assert (Hh : In h (e :: listing (Mongoose.user e) st))
        by (eapply Permutation_in; [exact Hperm | now left]).
      destruct Hh as [Heq | Hold]; [now symmetry|].
      exfalso.
      unfold listing in Hold.
      rewrite sort_by_date_desc_In, filter_In, String.eqb_eq in Hold.
      destruct Hold as [Hdocs Huser].
      pose proof (Holder h Hdocs Huser) as Hlt.
      unfold newest_first in Hsorted. inversion Hsorted as [|? ? _ Hall]; subst.
      rewrite Forall_forall in Hall. specialize (Hall e Hin). simpl in Hall. lia. }
    subst h. exists t. split; [reflexivity|].
    now apply Permutation_cons_inv with (a := e).
Qed.

Lemma new_expense_listed_first_witness :
  let reqP := request_of "token-of-alice" coffee_body in
  let reqG := request_of "token-of-alice" [] in
  let e := mkExpense "e4" alice "coffee" three_and_a_half 4000 in
  (created (fst (@POST_expenses sample_tokens "e4" 4000 reqP sample_store)) = Some e
   /\ @identity sample_tokens reqG = Some (Mongoose.user e)
   /\ (forall x, In x (docs sample_store) ->
         Mongoose.user x = Mongoose.user e -> date x < 4000))
  /\ exists rest,
       fst (@GET_expenses sample_tokens reqG
              (snd (@POST_expenses sample_tokens "e4" 4000 reqP sample_store)))
         = Respond (mkResponse 200 (JsonExpenses (e :: rest)))
       /\ Permutation rest (listing (Mongoose.user e) sample_store).
Proof.
  cbv zeta.
  assert (Holder : forall x, In x (docs sample_store) ->
            Mongoose.user x
            = Mongoose.user (mkExpense "e4" alice "coffee" three_and_a_half 4000) ->
            date x < 4000).
  { simpl. intros x [<- | [<- | [<- | []]]] _; simpl; lia. }
  split; [split; [vm_compute; reflexivity | split; [reflexivity | exact Holder]]|].
  apply (@new_expense_listed_first sample_tokens "e4" 4000
           (request_of "token-of-alice" coffee_body) (request_of "token-of-alice" [])
           sample_store (mkExpense "e4" alice "coffee" three_and_a_half 4000));
    [vm_compute; reflexivity | reflexivity | exact Holder].
Defined.

(** X16: a description that arrives as a JSON number is not refused: a
    number other than zero passes the presence check, the schema casts it
    to its decimal text, and the expense is created with that text as its
    description. *)
Theorem number_description_stored_as_text `{TokenService}
    (oid : string) (now : Z) (req : Request) (st : Store) (uid : string)
    (n a : number) :
  identity req = Some uid -> fault st = None ->
  get "description" (body req) = Num n -> truthy (Num n) = true ->
  truthy (get "amount" (body req)) = true ->
  ToNumber (get "amount" (body req)) = Normal a -> isNaN a = false ->
  POST_expenses oid now req st =
    (Respond (mkResponse 201 (JsonExpense (mkExpense oid uid (NumberToString n) a now))),
     mkStore (docs st ++ [mkExpense oid uid (NumberToString n) a now]) None
       (S (operations st))).
Proof.
  intros Hid Hfault Hd Htruthy Hamount Hnum Hnan.
  assert (Hguard : passes_guard req = true).
  { unfold passes_guard, falsy. now rewrite Hd, Htruthy, Hamount. }
  pose proof (validate_new_Expense oid now uid (get "description" (body req)) a) as Hv.
  rewrite Hd in Hv. simpl in Hv. rewrite Hnan in Hv.
  destruct (NumberToString n) as [|c r] eqn:Htext;
    [now apply NumberToString_not_empty in Htext|].
  destruct Hv as [Hv _]. rewrite <- Hd in Hv.
  destruct (POST_expenses_valid oid now req st uid a Hid Hguard Hnum Hv)
    as (d & Hcast & _ & _ & Hpost).
  rewrite Hd in Hcast. simpl in Hcast. rewrite Htext in Hcast.
  injection Hcast as <-. now rewrite Hfault in Hpost.
Qed.

Lemma number_description_stored_as_text_witness :
  let req := request_of "token-of-alice"
               [("description", Num (of_Z 42)); ("amount", Str "3.50")] in
  (@identity sample_tokens req = Some alice
   /\ fault empty_store = None
   /\ get "description" (body req) = Num (of_Z 42)
   /\ truthy (Num (of_Z 42)) = true
   /\ truthy (get "amount" (body req)) = true
   /\ ToNumber (get "amount" (body req)) = Normal three_and_a_half
   /\ isNaN three_and_a_half = false)
  /\ @POST_expenses sample_tokens "e4" 4000 req empty_store =
       (Respond (mkResponse 201
          (JsonExpense (mkExpense "e4" alice "42" three_and_a_half 4000))),
        mkStore [mkExpense "e4" alice "42" three_and_a_half 4000] None 1).
Proof.
  cbv zeta. split; [repeat split; vm_compute; reflexivity|].
  pose proof (@number_description_stored_as_text sample_tokens "e4" 4000
                (request_of "token-of-alice"
                   [("description", Num (of_Z 42)); ("amount", Str "3.50")])
                empty_store alice (of_Z 42) three_and_a_half
                eq_refl eq_refl eq_refl eq_refl eq_refl) as Hpost.
  rewrite Hpost; vm_compute; reflexivity.
Defined.
